(** * isjsonschemasubset: the resolver and the subset checker

    A shallow embedding of [src/isjsonschemasubset/__init__.py]: the
    pydantic value model, [resolve] (inlining of the definitions table) and
    [issubset] (the directional compatibility check), followed by the
    properties of the two functions. *)

From Stdlib Require Import List String Ascii ZArith Bool Lia.
From Stdlib Require Import Relations Wf_nat.
From Stdlib Require Import Floats.SpecFloat.
Import ListNotations.
Local Open Scope string_scope.
Local Open Scope list_scope.

Set Implicit Arguments.

(** ** Python strings, lists and dicts *)

Module Py.

(** [sep.join(ls)] *)
Definition join (sep : string) (ls : list string) : string :=
  String.concat sep ls.

(** [s.split(sep)] for a one-character separator: never the empty list. *)
Fixpoint split (sep : ascii) (s : string) : list string :=
  match s with
  | EmptyString => [EmptyString]
  | String.String c s' =>
      if Ascii.eqb c sep then EmptyString :: split sep s'
      else match split sep s' with
           | [] => [String.String c EmptyString]
           | w :: ws => String.String c w :: ws
           end
  end.

(** [x in xs] on a list of strings. *)
Definition contains (x : string) (xs : list string) : bool :=
  existsb (String.eqb x) xs.

(** Truthiness of a list: [bool(xs)]. *)
Definition truthy {A} (xs : list A) : bool :=
  match xs with [] => false | _ :: _ => true end.

(** A [dict[str, V]] keeps its items in insertion order; its keys are
    pairwise distinct ([unique_keys]). *)
Definition dict (V : Type) : Type := list (string * V).

Definition keys {V} (d : dict V) : list string := map fst d.
Definition values {V} (d : dict V) : list V := map snd d.

Definition unique_keys {V} (d : dict V) : Prop := NoDup (keys d).

(** [d.get(key)]: [None] when [key not in d]. *)
Fixpoint get {V} (key : string) (d : dict V) : option V :=
  match d with
  | [] => None
  | (k, v) :: d' => if String.eqb k key then Some v else get key d'
  end.

(** [key in d] *)
Definition mem {V} (key : string) (d : dict V) : bool :=
  match get key d with Some _ => true | None => false end.

(** [d[key] = v] on a key that is already bound: the position is kept. *)
Fixpoint set {V} (key : string) (v : V) (d : dict V) : dict V :=
  match d with
  | [] => []
  | (k, w) :: d' =>
      if String.eqb k key then (k, v) :: d' else (k, w) :: set key v d'
  end.

Section Lookup.
Context {V R : Type} (key : string) (absent : R) (present : V -> R).

(** [present(d[key]) if key in d else absent], written as one pass over
    the items so that [d[key]] is visibly a component of [d]. *)
Fixpoint lookup (d : dict V) : R :=
  match d with
  | [] => absent
  | (k, v) :: d' => if String.eqb k key then present v else lookup d'
  end.
End Lookup.

(** The part of Python's [set] that the checker uses.  The iteration
    order of a set of strings depends on the hashes of its members, which
    change from one interpreter run to the next; what every run
    guarantees is the contents.  [difference xs ys] is the sequence in
    which [set(xs) - set(ys)] is iterated. *)
Class SetOrder : Type := {
  difference : list string -> list string -> list string;
  difference_In : forall xs ys x,
    In x (difference xs ys) <-> In x xs /\ ~ In x ys;
  difference_NoDup : forall xs ys, NoDup (difference xs ys)
}.

End Py.

(** ** The value model *)

(** [None | bool | int | float | str] *)
Inductive scalar : Type :=
| SBool (b : bool)
| SInt (i : Z)
| SFloat (f : spec_float)
| SStr (s : string).

(** [class Base]: documentation fields carried by every node. *)
Record Base : Type := mkBase { title : string; description : string }.

Definition no_base : Base := mkBase "" "".

(** [Value = Null | Boolean | ... | Ref].  Assignment to a pydantic field
    is not validated, so every [default] can hold any scalar. *)
#[warnings="-register-all"]
Inductive Value : Type :=
| Null (base : Base)
| Boolean (base : Base) (default : option scalar)
| Integer (base : Base) (enum : option (list Z)) (default : option scalar)
| Number (base : Base) (enum : option (list spec_float))
    (default : option scalar)
| String (base : Base) (enum : option (list string))
    (format : option string) (default : option scalar)
| Array (base : Base) (items : Value)
| Object (base : Base) (properties : Py.dict Value) (required : list string)
| AllOf (base : Base) (all_of : list Value) (default : option scalar)
| AnyOf (base : Base) (any_of : list Value) (default : option scalar)
| Ref (base : Base) (ref : string).

(** Induction over the nested lists and dicts of a [Value]. *)
Section ValueInd.
Variable P : Value -> Prop.
Hypothesis HNull : forall base, P (Null base).
Hypothesis HBoolean : forall base d, P (Boolean base d).
Hypothesis HInteger : forall base e d, P (Integer base e d).
Hypothesis HNumber : forall base e d, P (Number base e d).
Hypothesis HString : forall base e f d, P (String base e f d).
Hypothesis HArray : forall base items, P items -> P (Array base items).
Hypothesis HObject : forall base properties required,
  Forall P (Py.values properties) -> P (Object base properties required).
Hypothesis HAllOf : forall base all_of d,
  Forall P all_of -> P (AllOf base all_of d).
Hypothesis HAnyOf : forall base any_of d,
  Forall P any_of -> P (AnyOf base any_of d).
Hypothesis HRef : forall base r, P (Ref base r).

Fixpoint Value_nested_ind (v : Value) : P v :=
  match v with
  | Null base => HNull base
  | Boolean base d => HBoolean base d
  | Integer base e d => HInteger base e d
  | Number base e d => HNumber base e d
  | String base e f d => HString base e f d
  | Array base items => HArray base (Value_nested_ind items)
  | Object base properties required =>
      HObject base properties required
        ((fix go (d : Py.dict Value) : Forall P (Py.values d) :=
            match d with
            | [] => Forall_nil P
            | (_, x) :: d' => Forall_cons x (Value_nested_ind x) (go d')
            end) properties)
  | AllOf base all_of d =>
      HAllOf base d
        ((fix go (l : list Value) : Forall P l :=
            match l with
            | [] => Forall_nil P
            | x :: l' => Forall_cons x (Value_nested_ind x) (go l')
            end) all_of)
  | AnyOf base any_of d =>
      HAnyOf base d
        ((fix go (l : list Value) : Forall P l :=
            match l with
            | [] => Forall_nil P
            | x :: l' => Forall_cons x (Value_nested_ind x) (go l')
            end) any_of)
  | Ref base r => HRef base r
  end.
End ValueInd.

(** [type(v)], and [v.__class__.__name__]. *)
Inductive class : Type :=
| CNull | CBoolean | CInteger | CNumber | CString
| CArray | CObject | CAllOf | CAnyOf | CRef.

Definition type (v : Value) : class :=
  match v with
  | Null _ => CNull
  | Boolean _ _ => CBoolean
  | Integer _ _ _ => CInteger
  | Number _ _ _ => CNumber
  | String _ _ _ _ => CString
  | Array _ _ => CArray
  | Object _ _ _ => CObject
  | AllOf _ _ _ => CAllOf
  | AnyOf _ _ _ => CAnyOf
  | Ref _ _ => CRef
  end.

Definition class_eqb (c1 c2 : class) : bool :=
  match c1, c2 with
  | CNull, CNull | CBoolean, CBoolean | CInteger, CInteger
  | CNumber, CNumber | CString, CString | CArray, CArray
  | CObject, CObject | CAllOf, CAllOf | CAnyOf, CAnyOf | CRef, CRef => true
  | _, _ => false
  end.

Definition class_name (c : class) : string :=
  match c with
  | CNull => "Null" | CBoolean => "Boolean" | CInteger => "Integer"
  | CNumber => "Number" | CString => "String" | CArray => "Array"
  | CObject => "Object" | CAllOf => "AllOf" | CAnyOf => "AnyOf"
  | CRef => "Ref"
  end.

(** [class JSONSchema]: the root document. *)
Record JSONSchema : Type := mkJSONSchema {
  schema_title : string;
  definitions : Py.dict Value;
  schema_properties : Py.dict Value;
  schema_required : list string
}.

(** ** Errors *)

(** [@dataclass class Error] *)
Record Error : Type := mkError {
  path : list string;
  a : Value;
  b : Value;
  msg : string
}.

Definition default_msg : string := "Types don't match".

(** [Error.__str__] *)
Definition Error_str (e : Error) : string :=
  "At ." ++ Py.join "." (path e) ++ " " ++ msg e ++ " - a: "
  ++ class_name (type (a e)) ++ " b: " ++ class_name (type (b e)).

(** Equality of two optional strings: [a.format != b.format]. *)
Definition format_eqb (f1 f2 : option string) : bool :=
  match f1, f2 with
  | None, None => true
  | Some s1, Some s2 => String.eqb s1 s2
  | _, _ => false
  end.

(** ** The subset checker *)

Section Issubset.
Context `{Py.SetOrder}.

(** [issubset(a, b, path)], with the generator drained into a list.
    The recursion is on [a] and, while [a] stays the same (a union on
    the right), on [b].  In the Object branch [Py.lookup] is
    [if b_key in a.properties: a_value = a.properties[b_key]; ...]
    (see [issubset_Object]). *)
Fixpoint issubset (a : Value) {struct a}
  : Value -> list string -> list Error :=
  fix on_b (b : Value) {struct b} : list string -> list Error :=
    fun path =>
    match a with
    | AnyOf _ a_any_of _ =>
        flat_map (fun a_value => issubset a_value b path) a_any_of
    | _ =>
    match b with
    | AnyOf _ b_any_of _ =>
        let all_errors := map (fun b_value => on_b b_value path) b_any_of in
        if forallb Py.truthy all_errors then List.concat all_errors else []
    | _ =>
    match a with
    | String _ a_enum a_format _ =>
        match b with
        | String _ b_enum b_format _ =>
            if negb (format_eqb a_format b_format) then
              [mkError path a b "String formats do not match"]
            else
              match b_enum with
              | Some b_enum =>
                  match a_enum with
                  | None =>
                      [mkError path a b "Cannot fit any string into an Enum"]
                  | Some a_enum =>
                      if Py.truthy (Py.difference a_enum b_enum) then
                        let keys_in_a_not_b :=
                          Py.join ", " (Py.difference a_enum b_enum) in
                        [mkError path a b
                           ("Following keys not in a: " ++ keys_in_a_not_b)]
                      else []
                  end
              | None => []
              end
        | _ => [mkError path a b default_msg]
        end
    | Null _ | Boolean _ _ | Integer _ _ _ | Number _ _ _ =>
        if negb (class_eqb (type a) (type b)) then
          [mkError path a b default_msg]
        else []
    | Array _ a_items =>
        match b with
        | Array _ b_items => issubset a_items b_items (path ++ ["[]"])
        | _ => [mkError path a b default_msg]
        end
    | Object _ a_properties _ =>
        match b with
        | Object _ b_properties b_required =>
            flat_map
              (fun item : string * Value =>
                 let (b_key, b_value) := item in
                 (if Py.contains b_key b_required
                     && negb (Py.mem b_key a_properties)
                  then [mkError (path ++ [b_key]) a b
                          ("Key: " ++ b_key ++ " not in "
                           ++ Py.join ", " (Py.keys a_properties))]
                  else [])
                 ++ Py.lookup b_key []
                      (fun a_value =>
                         issubset a_value b_value (path ++ [b_key]))
                      a_properties)
              b_properties
        | _ => [mkError path a b default_msg]
        end
    | _ => [mkError path a b "Unknown type"]
    end
    end
    end.

End Issubset.

(** ** The resolver *)

(** The exceptions that leave [resolve]: the two the function raises or
    provokes itself, [ValueError] from a tuple unpacking of the wrong
    length or from pydantic refusing an assignment to an undeclared field,
    and [RecursionError] when the interpreter's stack is exhausted. *)
Inductive exn : Type :=
| NotImplementedError (msg : string)
| KeyError (key : string)
| ValueError
| RecursionError.

Inductive outcome (A : Type) : Type :=
| Return (a : A)
| Raise (e : exn).
Arguments Return {A} a.
Arguments Raise {A} e.

(** [resolve] reads and writes the objects held by the definitions table,
    so a computation threads the table and ends in a value or an
    exception; what was written before an exception stays written. *)
Definition M (A : Type) : Type := Py.dict Value -> outcome A * Py.dict Value.

Definition ret {A} (x : A) : M A := fun defs => (Return x, defs).

Definition raise {A} (e : exn) : M A := fun defs => (Raise e, defs).

Definition bind {A B} (m : M A) (k : A -> M B) : M B :=
  fun defs =>
    match m defs with
    | (Return x, defs') => k x defs'
    | (Raise e, defs') => (Raise e, defs')
    end.

Notation "x <- m ;; k" := (bind m (fun x => k))
  (at level 61, m at next level, right associativity).
Notation "m ;;; k" := (bind m (fun _ => k))
  (at level 61, right associativity).

(** [[f(x) for x in xs]] *)
Fixpoint mapM {A B} (f : A -> M B) (xs : list A) : M (list B) :=
  match xs with
  | [] => ret []
  | x :: xs' => y <- f x ;; ys <- mapM f xs' ;; ret (y :: ys)
  end.

(** [{k: f(v) for k, v in d.items()}] *)
Fixpoint mapM_items {A B} (f : A -> M B) (d : Py.dict A) : M (Py.dict B) :=
  match d with
  | [] => ret []
  | (k, v) :: d' => y <- f v ;; ys <- mapM_items f d' ;; ret ((k, y) :: ys)
  end.

(** A reference to a node.  A document read from JSON is a tree of
    distinct objects, and the only objects [resolve] ever assigns to are
    the ones bound directly in the definitions table; so a node is either
    owned by the node that contains it (and then never changes, and is
    given by its value), or it is the object the table binds to a name. *)
Inductive objref : Type :=
| Own (v : Value)
| Shared (name : string).

(** What [resolve] returns: an object that existed before the call
    ([return o], [return v]) or a node it built. *)
#[warnings="-register-all"]
Inductive Out : Type :=
| Same (o : objref)
| NewArray (items : Out)
| NewObject (properties : Py.dict Out) (required : list string)
| NewAnyOf (any_of : list Out) (default : option scalar).

(** [definitions[name]] *)
Definition getitem (name : string) : M Value :=
  fun defs =>
    match Py.get name defs with
    | Some v => (Return v, defs)
    | None => (Raise (KeyError name), defs)
    end.

(** The node a reference points to, as it is now. *)
Definition deref (o : objref) : M Value :=
  match o with
  | Own v => ret v
  | Shared name => getitem name
  end.

(** The name a reference designates: the last of the three segments of
    [ref.split("/")]. *)
Definition ref_target (ref : string) : option string :=
  match Py.split "/" ref with
  | [_; _; name] => Some name
  | _ => None
  end.

(** [_, __, name = ref.split("/")] *)
Definition ref_name (ref : string) : M string :=
  match ref_target ref with
  | Some name => ret name
  | None => raise ValueError
  end.

Definition default_of (v : Value) : option scalar :=
  match v with
  | Boolean _ d | Integer _ _ d | Number _ _ d | String _ _ _ d
  | AllOf _ _ d | AnyOf _ _ d => d
  | Null _ | Array _ _ | Object _ _ _ | Ref _ _ => None
  end.

(** [v.default = d] on a pydantic model: the classes that declare no
    [default] field refuse the assignment. *)
Definition with_default (d : option scalar) (v : Value) : option Value :=
  match v with
  | Boolean base _ => Some (Boolean base d)
  | Integer base e _ => Some (Integer base e d)
  | Number base e _ => Some (Number base e d)
  | String base e f _ => Some (String base e f d)
  | AllOf base l _ => Some (AllOf base l d)
  | AnyOf base l _ => Some (AnyOf base l d)
  | Null _ | Array _ _ | Object _ _ _ | Ref _ _ => None
  end.

(** [definitions[name].default = d] *)
Definition setattr_default (name : string) (d : option scalar) : M unit :=
  fun defs =>
    match Py.get name defs with
    | Some v =>
        match with_default d v with
        | Some v' => (Return tt, Py.set name v' defs)
        | None => (Raise ValueError, defs)
        end
    | None => (Raise (KeyError name), defs)
    end.

Definition AllOf_msg : string := "Only support AllOf poiting to one reference".

(** [resolve(o, definitions)] for a [Value].  [fuel] is the number of
    nested calls the interpreter's stack still admits.  The properties of
    an Object are always a dict, so the branch [properties = None] of the
    source is never taken; the nodes built for Array, Object and AnyOf
    carry no title and no description. *)
Fixpoint resolve (fuel : nat) (o : objref) {struct fuel} : M Out :=
  match fuel with
  | O => raise RecursionError
  | S fuel' =>
      v <- deref o ;;
      match v with
      | Null _ | Boolean _ _ | Integer _ _ _ | Number _ _ _
      | String _ _ _ _ => ret (Same o)
      | Array _ items =>
          items' <- resolve fuel' (Own items) ;;
          ret (NewArray items')
      | Object _ properties required =>
          properties' <-
            mapM_items (fun v => resolve fuel' (Own v)) properties ;;
          ret (NewObject properties' required)
      | AllOf _ all_of default =>
          match all_of with
          | [Ref _ ref] =>
              name <- ref_name ref ;;
              getitem name ;;;
              match default with
              | Some _ => setattr_default name default
              | None => ret tt
              end ;;;
              ret (Same (Shared name))
          | _ => raise (NotImplementedError AllOf_msg)
          end
      | AnyOf _ any_of _ =>
          any_of' <- mapM (fun v => resolve fuel' (Own v)) any_of ;;
          v' <- deref o ;;
          ret (NewAnyOf any_of' (default_of v'))
      | Ref _ ref =>
          name <- ref_name ref ;;
          getitem name ;;;
          resolve fuel' (Shared name)
      end
  end.

(** [resolve(o)] for the root document: the table it threads is the
    document's own. *)
Definition resolve_schema (fuel : nat) (o : JSONSchema)
  : outcome Out * Py.dict Value :=
  match fuel with
  | O => (Raise RecursionError, definitions o)
  | S fuel' =>
      (properties' <-
         mapM_items (fun v => resolve fuel' (Own v)) (schema_properties o) ;;
       ret (NewObject properties' (schema_required o))) (definitions o)
  end.

(** A configuration of [resolve]: the depth left, the node, the table. *)
Definition config : Type := nat * objref * Py.dict Value.

Definition run (c : config) : outcome Out * Py.dict Value :=
  let '(fuel, o, defs) := c in resolve fuel o defs.

(** [calls c c']: the call [c] of [resolve] makes, itself, the call [c'].
    The items of a dict or list are resolved in order, each in the table
    its predecessors left, and only while they return. *)
Inductive calls : config -> config -> Prop :=
| calls_items fuel o defs base items :
    deref o defs = (Return (Array base items), defs) ->
    calls (S fuel, o, defs) (fuel, Own items, defs)
| calls_property fuel o defs base properties required
                 earlier key v later done defs' :
    deref o defs = (Return (Object base properties required), defs) ->
    properties = earlier ++ (key, v) :: later ->
    mapM_items (fun v => resolve fuel (Own v)) earlier defs
      = (Return done, defs') ->
    calls (S fuel, o, defs) (fuel, Own v, defs')
| calls_variant fuel o defs base any_of d earlier v later done defs' :
    deref o defs = (Return (AnyOf base any_of d), defs) ->
    any_of = earlier ++ v :: later ->
    mapM (fun v => resolve fuel (Own v)) earlier defs = (Return done, defs') ->
    calls (S fuel, o, defs) (fuel, Own v, defs')
| calls_target fuel o defs base ref name v :
    deref o defs = (Return (Ref base ref), defs) ->
    ref_target ref = Some name ->
    Py.get name defs = Some v ->
    calls (S fuel, o, defs) (fuel, Shared name, defs).

(** The calls the root call makes itself. *)
Inductive schema_calls (fuel : nat) (o : JSONSchema) : config -> Prop :=
| schema_calls_property earlier key v later done defs' :
    schema_properties o = earlier ++ (key, v) :: later ->
    mapM_items (fun v => resolve fuel (Own v)) earlier (definitions o)
      = (Return done, defs') ->
    schema_calls fuel o (fuel, Own v, defs').

(** The document as the caller finds it after the call. *)
Definition with_definitions (defs : Py.dict Value) (o : JSONSchema)
  : JSONSchema :=
  mkJSONSchema (schema_title o) defs (schema_properties o) (schema_required o).

(** The tree the caller sees when it walks a result, the shared objects
    read in the table as it is at that moment. *)
Fixpoint view (defs : Py.dict Value) (t : Out) {struct t} : option Value :=
  match t with
  | Same (Own v) => Some v
  | Same (Shared name) => Py.get name defs
  | NewArray items => option_map (Array no_base) (view defs items)
  | NewObject properties required =>
      option_map (fun ps => Object no_base ps required)
        ((fix go (d : Py.dict Out) : option (Py.dict Value) :=
            match d with
            | [] => Some []
            | (k, x) :: d' =>
                match view defs x, go d' with
                | Some v, Some vs => Some ((k, v) :: vs)
                | _, _ => None
                end
            end) properties)
  | NewAnyOf any_of default =>
      option_map (fun vs => AnyOf no_base vs default)
        ((fix go (l : list Out) : option (list Value) :=
            match l with
            | [] => Some []
            | x :: l' =>
                match view defs x, go l' with
                | Some v, Some vs => Some (v :: vs)
                | _, _ => None
                end
            end) any_of)
  end.

(** [load]: parse (not modelled) and resolve. *)
Definition load (fuel : nat) (o : JSONSchema) : option Value :=
  match resolve_schema fuel o with
  | (Return t, defs) => view defs t
  | (Raise _, _) => None
  end.

(** ** Shapes of trees *)

(** A resolved tree holds no [Ref] and no [AllOf]. *)
Fixpoint resolved (v : Value) : bool :=
  match v with
  | Null _ | Boolean _ _ | Integer _ _ _ | Number _ _ _
  | String _ _ _ _ => true
  | Array _ items => resolved items
  | Object _ properties _ =>
      forallb (fun item : string * Value => resolved (snd item)) properties
  | AnyOf _ any_of _ => forallb resolved any_of
  | AllOf _ _ _ | Ref _ _ => false
  end.

(** Every dict of the tree has pairwise distinct keys, as a Python dict
    does by construction. *)
Fixpoint dicts_ok (v : Value) : Prop :=
  match v with
  | Null _ | Boolean _ _ | Integer _ _ _ | Number _ _ _
  | String _ _ _ _ | Ref _ _ => True
  | Array _ items => dicts_ok items
  | Object _ properties _ =>
      Py.unique_keys properties
      /\ (fix all (d : Py.dict Value) : Prop :=
            match d with
            | [] => True
            | (_, x) :: d' => dicts_ok x /\ all d'
            end) properties
  | AllOf _ l _ | AnyOf _ l _ =>
      (fix all (l : list Value) : Prop :=
         match l with
         | [] => True
         | x :: l' => dicts_ok x /\ all l'
         end) l
  end.

(** ** Two iteration orders *)

(** The members of [set(xs) - set(ys)] in the order of their first
    occurrence in [xs]. *)
Definition difference_in_order (xs ys : list string) : list string :=
  nodup string_dec (filter (fun x => negb (Py.contains x ys)) xs).

Definition first_seen_order : Py.SetOrder.
Proof.
  refine {| Py.difference := difference_in_order |}.
  - intros xs ys x. unfold difference_in_order, Py.contains.
    rewrite nodup_In, filter_In, negb_true_iff.
    split; intros [Hx Hn]; split; trivial.
    + intros Hy. assert (existsb (String.eqb x) ys = true) as E.
      { apply existsb_exists. exists x.
        split; [trivial | apply String.eqb_refl]. }
      congruence.
    + destruct (existsb (String.eqb x) ys) eqn:E; trivial.
      apply existsb_exists in E. destruct E as [y [Hy E]].
      apply String.eqb_eq in E. subst y. contradiction.
  - intros xs ys. apply NoDup_nodup.
Defined.

(** The same members, last seen first. *)
Definition last_seen_order : Py.SetOrder.
Proof.
  refine {| Py.difference := fun xs ys => rev (difference_in_order xs ys) |}.
  - intros xs ys x. rewrite <- in_rev.
    apply (@Py.difference_In first_seen_order).
  - intros xs ys. apply NoDup_rev.
    apply (@Py.difference_NoDup first_seen_order).
Defined.

(** ** Well-formed documents *)

(** The reference strings of a tree. *)
Fixpoint refs (v : Value) : list string :=
  match v with
  | Ref _ ref => [ref]
  | Array _ items => refs items
  | Object _ properties _ =>
      flat_map (fun item : string * Value => refs (snd item)) properties
  | AllOf _ l _ | AnyOf _ l _ => flat_map refs l
  | Null _ | Boolean _ _ | Integer _ _ _ | Number _ _ _
  | String _ _ _ _ => []
  end.

(** Every AllOf of the tree is exactly one Ref. *)
Fixpoint allofs_ok (v : Value) : bool :=
  match v with
  | AllOf _ [Ref _ _] _ => true
  | AllOf _ _ _ => false
  | Array _ items => allofs_ok items
  | Object _ properties _ =>
      forallb (fun item : string * Value => allofs_ok (snd item)) properties
  | AnyOf _ l _ => forallb allofs_ok l
  | Null _ | Boolean _ _ | Integer _ _ _ | Number _ _ _
  | String _ _ _ _ | Ref _ _ => true
  end.

(** Every reference of the tree designates a name the table binds. *)
Definition targets_bound (defs : Py.dict Value) (v : Value) : bool :=
  forallb
    (fun ref =>
       match ref_target ref with
       | Some name => Py.mem name defs
       | None => false
       end)
    (refs v).

(** Every definition refers only to definitions of smaller rank: no name
    resolves back to itself. *)
Definition acyclic (rank : string -> nat) (defs : Py.dict Value) : bool :=
  forallb
    (fun item : string * Value =>
       forallb
         (fun ref =>
            match ref_target ref with
            | Some name => Nat.ltb (rank name) (rank (fst item))
            | None => false
            end)
         (refs (snd item)))
    defs.

Definition well_formed (rank : string -> nat) (o : JSONSchema) : bool :=
  let nodes := Py.values (definitions o) ++ Py.values (schema_properties o) in
  forallb allofs_ok nodes
  && forallb (targets_bound (definitions o)) nodes
  && acyclic rank (definitions o).

(** No AllOf anywhere in the tree. *)
Fixpoint allof_free (v : Value) : bool :=
  match v with
  | AllOf _ _ _ => false
  | Array _ items => allof_free items
  | Object _ properties _ =>
      forallb (fun item : string * Value => allof_free (snd item)) properties
  | AnyOf _ l _ => forallb allof_free l
  | Null _ | Boolean _ _ | Integer _ _ _ | Number _ _ _
  | String _ _ _ _ | Ref _ _ => true
  end.

(** The nesting depth of a tree. *)
Fixpoint height (v : Value) : nat :=
  match v with
  | Array _ items => S (height items)
  | Object _ properties _ =>
      S (list_max (map (fun item : string * Value => height (snd item))
                     properties))
  | AllOf _ l _ | AnyOf _ l _ => S (list_max (map height l))
  | Null _ | Boolean _ _ | Integer _ _ _ | Number _ _ _
  | String _ _ _ _ | Ref _ _ => 1
  end.

(** A stack depth that suffices to resolve a well-formed document: every
    definition can be entered once per rank. *)
Definition enough_fuel (rank : string -> nat) (o : JSONSchema) : nat :=
  let defs := definitions o in
  2 + list_max (map height (Py.values (schema_properties o)))
  + S (list_max (map rank (Py.keys defs)))
    * list_max (map height (Py.values defs)).

(** Every reference of [v] designates a name that the table binds and
    whose rank is below [r]. *)
Definition refs_below (rank : string -> nat) (defs : Py.dict Value)
           (r : nat) (v : Value) : Prop :=
  forall ref, In ref (refs v) ->
    exists name w,
      ref_target ref = Some name /\ Py.get name defs = Some w
      /\ rank name < r.

(** The call returned, left the table as it was, and what it returned is a
    resolved tree. *)
Definition returns_resolved (defs : Py.dict Value)
           (result : outcome Out * Py.dict Value) : Prop :=
  exists out t,
    result = (Return out, defs) /\ view defs out = Some t
    /\ resolved t = true.

(** ** Sorted order *)

Fixpoint insert_sorted (x : string) (l : list string) : list string :=
  match l with
  | [] => [x]
  | y :: l' => if String.leb x y then x :: l else y :: insert_sorted x l'
  end.

(** The order the specification asks of the enum message: the members in
    increasing order. *)
Definition spec_sorted (l : list string) : list string :=
  fold_right insert_sorted [] l.

(** ** Sample schemas *)

Module Sample.

Definition string_ : Value := String no_base None None None.
Definition integer : Value := Integer no_base None None.
Definition number : Value := Number no_base None None.
Definition null : Value := Null no_base.
Definition enum (members : list string) : Value :=
  String no_base (Some members) None None.
Definition any_of (variants : list Value) : Value :=
  AnyOf no_base variants None.
Definition object (properties : Py.dict Value) (required : list string)
  : Value :=
  Object no_base properties required.

(** [class StrOrNoneNested] and [class IntOrStrNested] of the test suite,
    once resolved. *)
Definition StrOrNoneNested : Value :=
  object [("b", any_of [object [("a", any_of [string_; null])] ["a"]; null])]
    ["b"].
Definition IntOrStrNested : Value :=
  object [("b", any_of [object [("a", any_of [integer; string_])] ["a"]; null])]
    ["b"].

(** The schema document pydantic writes for [class StrOrNoneNested]. *)
Definition StrOrNoneNested_document : JSONSchema :=
  mkJSONSchema "StrOrNoneNested"
    [("StrOrNone",
      Object (mkBase "StrOrNone" "")
        [("a", AnyOf (mkBase "A" "") [string_; null] None)] ["a"])]
    [("b", any_of [Ref no_base "#/$defs/StrOrNone"; null])]
    ["b"].

(** A document whose property aliases a definition that itself refers to
    another one. *)
Definition nested_alias : JSONSchema :=
  mkJSONSchema "Outer"
    [("Inner", object [("a", string_)] ["a"]);
     ("Middle", object [("inner", Ref no_base "#/$defs/Inner")] ["inner"])]
    [("m", AllOf no_base [Ref no_base "#/$defs/Middle"] None)]
    ["m"].

Definition nested_alias_rank (name : string) : nat :=
  if String.eqb name "Middle" then 1 else 0.

(** A document in which one definition is aliased with a default and
    referred to plainly. *)
Definition aliased_default : JSONSchema :=
  mkJSONSchema "Person"
    [("Name", string_)]
    [("first", AllOf no_base [Ref no_base "#/$defs/Name"] (Some (SStr "d")));
     ("last", Ref no_base "#/$defs/Name")]
    ["last"].

(** The same with a union for the definition, and the plain reference
    first. *)
Definition aliased_union : JSONSchema :=
  mkJSONSchema "Choice"
    [("U", any_of [string_; null])]
    [("plain", Ref no_base "#/$defs/U");
     ("aliased", AllOf no_base [Ref no_base "#/$defs/U"] (Some (SStr "d")))]
    ["plain"].

(** Two String nodes that differ by their format. *)
Definition date : Value := String no_base None (Some "date") None.
Definition date_time : Value := String no_base None (Some "date-time") None.

(** A reference to the definition [name]. *)
Definition reference (name : string) : Value :=
  Ref no_base ("#/$defs/" ++ name).

(** Two definitions that refer to each other. *)
Definition cyclic_definitions : Py.dict Value :=
  [("A", reference "B"); ("B", reference "A")].

End Sample.

(** ** Definitions for the further properties *)

(** Prefixing the path of an error. *)
Definition under (prefix : list string) (e : Error) : Error :=
  mkError (prefix ++ path e) (a e) (b e) (msg e).

(** [v] without what documents it: titles, descriptions and defaults
    everywhere, and the enums of Integer and Number nodes. *)
Fixpoint bare (v : Value) : Value :=
  match v with
  | Null _ => Null no_base
  | Boolean _ _ => Boolean no_base None
  | Integer _ _ _ => Integer no_base None None
  | Number _ _ _ => Number no_base None None
  | String _ e f _ => String no_base e f None
  | Array _ items => Array no_base (bare items)
  | Object _ properties required =>
      Object no_base
        (map (fun item : string * Value => (fst item, bare (snd item)))
           properties)
        required
  | AllOf _ l _ => AllOf no_base (map bare l) None
  | AnyOf _ l _ => AnyOf no_base (map bare l) None
  | Ref _ ref => Ref no_base ref
  end.

(** [bare v] with, besides, no property marked required. *)
Fixpoint bare_optional (v : Value) : Value :=
  match v with
  | Null _ => Null no_base
  | Boolean _ _ => Boolean no_base None
  | Integer _ _ _ => Integer no_base None None
  | Number _ _ _ => Number no_base None None
  | String _ e f _ => String no_base e f None
  | Array _ items => Array no_base (bare_optional items)
  | Object _ properties _ =>
      Object no_base
        (map (fun item : string * Value =>
                (fst item, bare_optional (snd item)))
           properties)
        []
  | AllOf _ l _ => AllOf no_base (map bare_optional l) None
  | AnyOf _ l _ => AnyOf no_base (map bare_optional l) None
  | Ref _ ref => Ref no_base ref
  end.

(** [subnode v w]: the node [v] occurs in the tree [w], at its root, as
    the items of an Array, as a property of an Object or as a variant of
    an AnyOf. *)
Inductive subnode : Value -> Value -> Prop :=
| subnode_root v : subnode v v
| subnode_items v base items :
    subnode v items -> subnode v (Array base items)
| subnode_property v base properties required key x :
    In (key, x) properties -> subnode v x ->
    subnode v (Object base properties required)
| subnode_variant v base any_of d x :
    In x any_of -> subnode v x -> subnode v (AnyOf base any_of d).


(** One call of [resolve], the nested calls going to [rec]:
    [resolve (S fuel)] is [resolve_step (resolve fuel)]. *)
Definition resolve_step (rec : objref -> M Out) (o : objref) : M Out :=
  v <- deref o ;;
  match v with
  | Null _ | Boolean _ _ | Integer _ _ _ | Number _ _ _
  | String _ _ _ _ => ret (Same o)
  | Array _ items =>
      items' <- rec (Own items) ;;
      ret (NewArray items')
  | Object _ properties required =>
      properties' <- mapM_items (fun v => rec (Own v)) properties ;;
      ret (NewObject properties' required)
  | AllOf _ all_of default =>
      match all_of with
      | [Ref _ ref] =>
          name <- ref_name ref ;;
          getitem name ;;;
          match default with
          | Some _ => setattr_default name default
          | None => ret tt
          end ;;;
          ret (Same (Shared name))
      | _ => raise (NotImplementedError AllOf_msg)
      end
  | AnyOf _ any_of _ =>
      any_of' <- mapM (fun v => rec (Own v)) any_of ;;
      v' <- deref o ;;
      ret (NewAnyOf any_of' (default_of v'))
  | Ref _ ref =>
      name <- ref_name ref ;;
      getitem name ;;;
      rec (Shared name)
  end.

(** [v'] is [v], or [v] with another default. *)
Definition same_but_default (v v' : Value) : Prop :=
  v' = v \/ exists d, with_default d v = Some v'.

(** [defs'] binds the names of [defs], in the same order, to the same
    nodes up to their defaults. *)
Definition kept (defs defs' : Py.dict Value) : Prop :=
  Forall2
    (fun x y : string * Value =>
       fst x = fst y /\ same_but_default (snd x) (snd y))
    defs defs'.

(** A resolved tree as [resolve] builds it again: the Array, Object and
    AnyOf nodes lose their title and description, the other nodes are
    kept. *)
Fixpoint rebuilt (v : Value) : Value :=
  match v with
  | Array _ items => Array no_base (rebuilt items)
  | Object _ properties required =>
      Object no_base
        (map (fun item : string * Value => (fst item, rebuilt (snd item)))
           properties)
        required
  | AnyOf _ l d => AnyOf no_base (map rebuilt l) d
  | Null _ | Boolean _ _ | Integer _ _ _ | Number _ _ _
  | String _ _ _ _ | AllOf _ _ _ | Ref _ _ => v
  end.

(** A computation that only ever changes defaults of the table. *)
Definition keeps {A} (m : M A) : Prop :=
  forall defs r defs', m defs = (r, defs') -> kept defs defs'.

(** Anything but RecursionError. *)
Definition not_recursion_error {A} (r : outcome A) : Prop :=
  match r with Raise RecursionError => False | _ => True end.

(** What [m] does, unless it raises RecursionError, [m'] does too. *)
Definition grows {A} (m m' : M A) : Prop :=
  forall defs r defs', m defs = (r, defs') -> not_recursion_error r ->
    m' defs = (r, defs').

(** The nodes that hold no other node and no reference. *)
Definition is_leaf (v : Value) : bool :=
  match v with
  | Null _ | Boolean _ _ | Integer _ _ _ | Number _ _ _
  | String _ _ _ _ => true
  | Array _ _ | Object _ _ _ | AllOf _ _ _ | AnyOf _ _ _ | Ref _ _ => false
  end.

(** [inlined defs v t]: [t] is [v] with every reference replaced by the
    definition it designates, itself inlined; leaves are kept, and the
    Array, Object and AnyOf nodes are built anew, without title and
    description.  An AllOf has no inlining. *)
Inductive inlined (defs : Py.dict Value) : Value -> Value -> Prop :=
| inlined_leaf v : is_leaf v = true -> inlined defs v v
| inlined_Array base items t :
    inlined defs items t ->
    inlined defs (Array base items) (Array no_base t)
| inlined_Object base properties required ts :
    inlined_items defs properties ts ->
    inlined defs (Object base properties required)
      (Object no_base ts required)
| inlined_AnyOf base any_of d ts :
    inlined_list defs any_of ts ->
    inlined defs (AnyOf base any_of d) (AnyOf no_base ts d)
| inlined_Ref base ref name w t :
    ref_target ref = Some name ->
    Py.get name defs = Some w ->
    inlined defs w t ->
    inlined defs (Ref base ref) t
with inlined_list (defs : Py.dict Value)
  : list Value -> list Value -> Prop :=
| inlined_nil : inlined_list defs [] []
| inlined_cons v t vs ts :
    inlined defs v t -> inlined_list defs vs ts ->
    inlined_list defs (v :: vs) (t :: ts)
with inlined_items (defs : Py.dict Value)
  : Py.dict Value -> Py.dict Value -> Prop :=
| inlined_items_nil : inlined_items defs [] []
| inlined_items_cons key v t vs ts :
    inlined defs v t -> inlined_items defs vs ts ->
    inlined_items defs ((key, v) :: vs) ((key, t) :: ts).

Scheme inlined_mut := Induction for inlined Sort Prop
  with inlined_list_mut := Induction for inlined_list Sort Prop
  with inlined_items_mut := Induction for inlined_items Sort Prop.

(** The call returned, left the table as it was, and what it returned is
    the inlining of [v]. *)
Definition returns_inlined (defs : Py.dict Value) (v : Value)
           (result : outcome Out * Py.dict Value) : Prop :=
  exists out t,
    result = (Return out, defs) /\ view defs out = Some t
    /\ inlined defs v t.

(** An error without its message. *)
Definition where_ (e : Error) : list string * Value * Value :=
  (path e, a e, b e).

(** ** Facts about Python's containers *)

Lemma truthy_false_iff {A} (xs : list A) : Py.truthy xs = false <-> xs = [].
Proof. destruct xs; simpl; split; intros E; congruence. Qed.

Lemma truthy_true_iff {A} (xs : list A) : Py.truthy xs = true <-> xs <> [].
Proof. destruct xs; simpl; split; intros E; congruence. Qed.

Lemma concat_nil_iff {A} (ls : list (list A)) :
  List.concat ls = [] <-> Forall (fun l => l = []) ls.
Proof.
  induction ls as [|l ls IH]; simpl.
  - split; auto.
  - split.
    + intros E. apply app_eq_nil in E. destruct E as [E1 E2].
      constructor; [exact E1 | apply IH, E2].
    + intros F. inversion F; subst. simpl. apply IH. assumption.
Qed.

Lemma lookup_get {V R} key (absent : R) (present : V -> R) (d : Py.dict V) :
  Py.lookup key absent present d =
  match Py.get key d with Some v => present v | None => absent end.
Proof.
  induction d as [|[k v] d IH]; simpl; trivial.
  destruct (String.eqb k key); trivial.
Qed.

Lemma get_In {V} key (v : V) d : Py.get key d = Some v -> In (key, v) d.
Proof.
  induction d as [|[k w] d IH]; simpl; [discriminate|].
  destruct (String.eqb k key) eqn:E.
  - apply String.eqb_eq in E. intros [= ->]. subst. now left.
  - intros G. right. auto.
Qed.

Lemma get_None_keys {V} key (d : Py.dict V) :
  Py.get key d = None <-> ~ In key (Py.keys d).
Proof.
  induction d as [|[k w] d IH]; simpl.
  - split; auto.
  - destruct (String.eqb k key) eqn:E.
    + apply String.eqb_eq in E. subst. split; [discriminate|].
      intros N. exfalso. apply N. now left.
    + apply String.eqb_neq in E. rewrite IH. split.
      * intros N [F|F]; [congruence|auto].
      * intros N F. apply N. now right.
Qed.

Lemma get_unique {V} key (v : V) d :
  Py.unique_keys d -> In (key, v) d -> Py.get key d = Some v.
Proof.
  unfold Py.unique_keys.
  induction d as [|[k w] d IH]; simpl; [contradiction|].
  intros U I. inversion U as [|? ? N U']; subst.
  destruct I as [I|I].
  - inversion I; subst. now rewrite String.eqb_refl.
  - destruct (String.eqb k key) eqn:E.
    + apply String.eqb_eq in E. subst. exfalso. apply N.
      change key with (fst (key, v)). now apply in_map.
    + auto.
Qed.

Lemma contains_In x xs : Py.contains x xs = true <-> In x xs.
Proof.
  unfold Py.contains. rewrite existsb_exists. split.
  - intros [y [I E]]. apply String.eqb_eq in E. now subst.
  - intros I. exists x. split; [trivial | apply String.eqb_refl].
Qed.

Lemma class_eqb_eq c1 c2 : class_eqb c1 c2 = true <-> c1 = c2.
Proof. destruct c1, c2; simpl; split; intros E; congruence. Qed.

Lemma format_eqb_refl f : format_eqb f f = true.
Proof. destruct f; simpl; trivial. apply String.eqb_refl. Qed.

(** ** The subset checker: its branches *)

Section IssubsetFacts.
Context `{Py.SetOrder}.

Lemma difference_nil_iff xs ys : Py.difference xs ys = [] <-> incl xs ys.
Proof.
  split.
  - intros E x Hx. destruct (in_dec string_dec x ys) as [I|N]; trivial.
    assert (In x (Py.difference xs ys)) as F by (apply Py.difference_In; auto).
    rewrite E in F. contradiction.
  - intros I. destruct (Py.difference xs ys) as [|x l] eqn:E; trivial.
    assert (In x (Py.difference xs ys)) as F by (rewrite E; now left).
    apply Py.difference_In in F. destruct F as [F N]. exfalso. auto.
Qed.

Lemma issubset_AnyOf_left base a_any_of d b path :
  issubset (AnyOf base a_any_of d) b path =
  flat_map (fun a_value => issubset a_value b path) a_any_of.
Proof. destruct b; reflexivity. Qed.

Lemma issubset_AnyOf_right a base b_any_of d path :
  type a <> CAnyOf ->
  issubset a (AnyOf base b_any_of d) path =
  let all_errors := map (fun b_value => issubset a b_value path) b_any_of in
  if forallb Py.truthy all_errors then List.concat all_errors else [].
Proof.
  intros N. destruct a; try reflexivity. contradiction N. reflexivity.
Qed.

Lemma issubset_Object base_a a_properties a_required
      base_b b_properties b_required path :
  let a := Object base_a a_properties a_required in
  let b := Object base_b b_properties b_required in
  issubset a b path =
  flat_map
    (fun item : string * Value =>
       (if Py.contains (fst item) b_required
           && negb (Py.mem (fst item) a_properties)
        then [mkError (path ++ [fst item]) a b
                ("Key: " ++ fst item ++ " not in "
                 ++ Py.join ", " (Py.keys a_properties))]
        else [])
       ++ match Py.get (fst item) a_properties with
          | Some a_value => issubset a_value (snd item) (path ++ [fst item])
          | None => []
          end)
    b_properties.
Proof.
  intros a b. subst a b. simpl.
  apply flat_map_ext. intros [b_key b_value]. simpl.
  now rewrite lookup_get.
Qed.

End IssubsetFacts.

(** ** The subset checker: unions *)

Section Unions.
Context `{Py.SetOrder}.

(** C3: with a union on the left, the errors are those of each variant of
    [a] against [b], concatenated in variant order; so there is no error
    exactly when every variant of [a] is a subset of [b]. *)
Theorem C3_anyof_left_concatenates base a_any_of d b path :
  issubset (AnyOf base a_any_of d) b path =
    List.concat (map (fun a_value => issubset a_value b path) a_any_of)
  /\ (issubset (AnyOf base a_any_of d) b path = [] <->
      Forall (fun a_value => issubset a_value b path = []) a_any_of).
Proof.
  rewrite issubset_AnyOf_left, flat_map_concat_map. split; [reflexivity|].
  rewrite concat_nil_iff, Forall_map. reflexivity.
Qed.

(** C4: with a union on the right only, one variant without errors makes
    the whole check succeed; when every variant has errors, all of them
    are reported, in variant order. *)
Theorem C4_anyof_right_existential a base b_any_of d path :
  type a <> CAnyOf ->
  let all_errors := map (fun b_value => issubset a b_value path) b_any_of in
  (Exists (fun b_value => issubset a b_value path = []) b_any_of ->
   issubset a (AnyOf base b_any_of d) path = [])
  /\ (Forall (fun b_value => issubset a b_value path <> []) b_any_of ->
      issubset a (AnyOf base b_any_of d) path = List.concat all_errors).
Proof.
  intros N all_errors. rewrite issubset_AnyOf_right by exact N.
  fold all_errors. cbv zeta. split.
  - intros E. destruct (forallb Py.truthy all_errors) eqn:F; trivial.
    rewrite forallb_forall in F.
    apply Exists_exists in E. destruct E as [w [I E]].
    assert (Py.truthy (issubset a w path) = true) as T.
    { apply F. unfold all_errors.
      apply (in_map (fun b_value => issubset a b_value path)), I. }
    rewrite E in T. discriminate.
  - intros F. assert (forallb Py.truthy all_errors = true) as T.
    { apply forallb_forall. intros errors I. unfold all_errors in I.
      apply in_map_iff in I. destruct I as [w [<- I]].
      apply truthy_true_iff. rewrite Forall_forall in F. auto. }
    now rewrite T.
Qed.

(** C10: an empty union on the right accepts every [a] that is not itself
    a union. *)
Theorem C10_empty_anyof_right a base d path :
  type a <> CAnyOf ->
  issubset a (AnyOf base [] d) path = [].
Proof.
  intros N. rewrite issubset_AnyOf_right by exact N. reflexivity.
Qed.

(** A variant of the right-hand union that accepts [a] makes the union
    accept [a], whatever [a] is. *)
Lemma issubset_into_variant a : forall base b_any_of d b_value path,
  In b_value b_any_of ->
  issubset a b_value path = [] ->
  issubset a (AnyOf base b_any_of d) path = [].
Proof.
  induction a as [ | | | | | | | | base_a a_any_of d_a IH | ]
    using Value_nested_ind; intros bb ws dd w p I E.
  9: { rewrite issubset_AnyOf_left in *.
       rewrite flat_map_concat_map, concat_nil_iff, Forall_map in *.
       rewrite Forall_forall in *. intros v Iv.
       apply (IH v Iv bb ws dd w p I). apply E, Iv. }
  all: rewrite issubset_AnyOf_right by discriminate; cbv zeta.
  all: destruct (forallb Py.truthy _) eqn:F; trivial.
  all: rewrite forallb_forall in F.
  all: specialize (F _ (in_map (fun b_value => issubset _ b_value p) _ _ I)).
  all: rewrite E in F; discriminate.
Qed.

End Unions.

(** ** The subset checker: scalars *)

Section Scalars.
Context `{Py.SetOrder}.

(** C8: for [a] a Null, Boolean, Integer or Number and [b] not a union,
    there is no error exactly when [b] has the same class as [a], and
    otherwise there is the one type-mismatch error; whatever the enums,
    an Integer is not a subset of a Number. *)
Theorem C8_scalar_exact_class a b path :
  In (type a) [CNull; CBoolean; CInteger; CNumber] ->
  type b <> CAnyOf ->
  (issubset a b path = [] <-> type b = type a)
  /\ (type b <> type a -> issubset a b path = [mkError path a b default_msg])
  /\ (forall base_a e_a d_a base_b e_b d_b,
        issubset (Integer base_a e_a d_a) (Number base_b e_b d_b) path =
        [mkError path (Integer base_a e_a d_a) (Number base_b e_b d_b)
           default_msg]).
Proof.
  intros Ta Tb. split; [|split].
  - destruct a; simpl in Ta; try (exfalso; intuition discriminate);
      destruct b; simpl; try (contradiction Tb; reflexivity);
      split; intros E; try discriminate; reflexivity.
  - intros N. destruct a; simpl in Ta; try (exfalso; intuition discriminate);
      destruct b; simpl; try (contradiction Tb; reflexivity);
      try (contradiction N; reflexivity); reflexivity.
  - reflexivity.
Qed.

End Scalars.

(** ** The subset checker: strings *)

Section Strings.
Context `{Py.SetOrder}.

(** C5 (amended): for two String nodes of equal format there is no error
    exactly when [b] has no enum, or [a] has one whose members all belong
    to [b]'s; an enum on [b] alone gives the one error "Cannot fit any
    string into an Enum"; and members of [a]'s enum missing from [b]'s
    give one error whose message joins, with ", ", exactly the missing
    members, each once, in the order in which the set difference is
    iterated. *)
Theorem C5_string_enum base_a a_enum d_a base_b b_enum d_b format path :
  let a := String base_a a_enum format d_a in
  let b := String base_b b_enum format d_b in
  (issubset a b path = [] <->
   b_enum = None
   \/ exists xs ys, a_enum = Some xs /\ b_enum = Some ys /\ incl xs ys)
  /\ (forall ys, b_enum = Some ys -> a_enum = None ->
      issubset a b path =
      [mkError path a b "Cannot fit any string into an Enum"])
  /\ (forall xs ys, a_enum = Some xs -> b_enum = Some ys -> ~ incl xs ys ->
      exists differing,
        issubset a b path =
        [mkError path a b
           ("Following keys not in a: " ++ Py.join ", " differing)]
        /\ NoDup differing
        /\ forall x, In x differing <-> In x xs /\ ~ In x ys).
Proof.
  intros a b. subst a b. simpl. rewrite format_eqb_refl. simpl.
  split; [|split].
  - destruct b_enum as [ys|]; [|split; auto].
    destruct a_enum as [xs|].
    + destruct (Py.difference xs ys) as [|x l] eqn:E; simpl.
      * split; [|reflexivity]. intros _. right. exists xs, ys.
        repeat split. now apply difference_nil_iff.
      * split; [discriminate|].
        intros [F|[xs' [ys' [[= <-] [[= <-] I]]]]]; [discriminate|].
        apply difference_nil_iff in I. congruence.
    + split; [discriminate|].
      intros [F|[xs' [ys' [F _]]]]; discriminate.
  - intros ys -> ->. reflexivity.
  - intros xs ys -> -> N. exists (Py.difference xs ys).
    split; [|split].
    + destruct (Py.truthy (Py.difference xs ys)) eqn:T; trivial.
      apply truthy_false_iff, difference_nil_iff in T. contradiction.
    + apply Py.difference_NoDup.
    + apply Py.difference_In.
Qed.

End Strings.

(** ** The subset checker: objects *)

Section Objects.
Context `{Py.SetOrder}.

(** C6: between two Objects the errors are gathered key by key over the
    properties of [b], in their order.  A key that [b] requires and [a]
    lacks gives one error at [path + (key,)] naming the key and listing
    the keys of [a]; a key that [a] has gives the errors of the two
    property values at [path + (key,)], required or not; a key that [a]
    lacks and [b] does not require gives nothing.  Properties of [a]
    alone are never visited. *)
Theorem C6_object_properties base_a a_properties a_required
        base_b b_properties b_required path :
  let a := Object base_a a_properties a_required in
  let b := Object base_b b_properties b_required in
  exists per_key : string -> Value -> list Error,
    issubset a b path =
      List.concat (map (fun item => per_key (fst item) (snd item)) b_properties)
    /\ (forall key b_value,
          Py.get key a_properties = None -> In key b_required ->
          per_key key b_value =
          [mkError (path ++ [key]) a b
             ("Key: " ++ key ++ " not in "
              ++ Py.join ", " (Py.keys a_properties))])
    /\ (forall key b_value a_value,
          Py.get key a_properties = Some a_value ->
          per_key key b_value = issubset a_value b_value (path ++ [key]))
    /\ (forall key b_value,
          Py.get key a_properties = None -> ~ In key b_required ->
          per_key key b_value = []).
Proof.
  intros a b.
  exists (fun key b_value =>
    (if Py.contains key b_required && negb (Py.mem key a_properties)
     then [mkError (path ++ [key]) a b
             ("Key: " ++ key ++ " not in "
              ++ Py.join ", " (Py.keys a_properties))]
     else [])
    ++ match Py.get key a_properties with
       | Some a_value => issubset a_value b_value (path ++ [key])
       | None => []
       end).
  split; [|split; [|split]].
  - subst a b. rewrite issubset_Object, flat_map_concat_map. reflexivity.
  - intros key b_value G R. unfold Py.mem. rewrite G.
    apply contains_In in R. rewrite R. reflexivity.
  - intros key b_value a_value G. unfold Py.mem. rewrite G.
    rewrite andb_false_r. reflexivity.
  - intros key b_value G R. unfold Py.mem. rewrite G.
    destruct (Py.contains key b_required) eqn:C; [|reflexivity].
    apply contains_In in C. contradiction.
Qed.

End Objects.

(** ** The subset checker: reflexivity *)

Lemma dicts_ok_Object base properties required :
  dicts_ok (Object base properties required) <->
  Py.unique_keys properties /\ Forall dicts_ok (Py.values properties).
Proof.
  simpl. apply and_iff_compat_l.
  induction properties as [|[k x] d IH]; simpl.
  - split; auto.
  - rewrite IH. split.
    + intros [A B]. now constructor.
    + intros F. inversion F; subst. now split.
Qed.

Lemma dicts_ok_AnyOf base any_of d :
  dicts_ok (AnyOf base any_of d) <-> Forall dicts_ok any_of.
Proof.
  simpl. induction any_of as [|x l IH]; simpl.
  - split; auto.
  - rewrite IH. split.
    + intros [A B]. now constructor.
    + intros F. inversion F; subst. now split.
Qed.

Lemma flat_map_nil {A B} (f : A -> list B) (l : list A) :
  (forall x, In x l -> f x = []) -> flat_map f l = [].
Proof.
  induction l as [|x l IH]; simpl; intros E; trivial.
  rewrite (E x) by now left. simpl. apply IH. intros y I. apply E. now right.
Qed.

Section Reflexivity.
Context `{Py.SetOrder}.

(** C7: a resolved tree is a subset of itself. *)
Theorem C7_issubset_reflexive x : forall path,
  resolved x = true -> dicts_ok x -> issubset x x path = [].
Proof.
  induction x as [ | | | | base e f d | base items IH
                 | base properties required IH | | base any_of d IH | ]
    using Value_nested_ind; intros path R D; try reflexivity;
    try discriminate R.
  - simpl. rewrite format_eqb_refl. simpl.
    destruct e as [xs|]; trivial.
    assert (Py.difference xs xs = []) as ->
        by (apply difference_nil_iff, incl_refl).
    reflexivity.
  - simpl in *. auto.
  - rewrite issubset_Object. apply dicts_ok_Object in D. destruct D as [U D].
    simpl in R. rewrite forallb_forall in R.
    rewrite Forall_forall in IH, D.
    apply flat_map_nil. intros [key v] I. simpl.
    assert (In v (Py.values properties)) as Iv
        by (change v with (snd (key, v)); now apply in_map).
    unfold Py.mem. rewrite (get_unique _ _ U I).
    rewrite andb_false_r. simpl.
    apply IH; [exact Iv | apply (R _ I) | apply D, Iv].
  - rewrite issubset_AnyOf_left. apply dicts_ok_AnyOf in D.
    simpl in R. rewrite forallb_forall in R.
    rewrite Forall_forall in IH, D.
    apply flat_map_nil. intros v I.
    apply issubset_into_variant with (b_value := v); auto.
Qed.

End Reflexivity.

(** ** The resolver: faults *)

Lemma mapM_raise {A B} (f : A -> M B) earlier x later done defs defs' e defs'' :
  mapM f earlier defs = (Return done, defs') ->
  f x defs' = (Raise e, defs'') ->
  mapM f (earlier ++ x :: later) defs = (Raise e, defs'').
Proof.
  revert done defs. induction earlier as [|y l IH]; simpl; intros done defs E F.
  - unfold ret in E. injection E as _ <-. unfold bind. now rewrite F.
  - unfold bind in *. destruct (f y defs) as [[y'|e'] d1]; [|discriminate].
    destruct (mapM f l d1) as [[ys|e'] d2] eqn:G; [|discriminate].
    unfold ret in E. injection E as _ <-.
    now rewrite (IH _ _ G F).
Qed.

Lemma mapM_items_raise {A B} (f : A -> M B) earlier key x later
      done defs defs' e defs'' :
  mapM_items f earlier defs = (Return done, defs') ->
  f x defs' = (Raise e, defs'') ->
  mapM_items f (earlier ++ (key, x) :: later) defs = (Raise e, defs'').
Proof.
  revert done defs.
  induction earlier as [|[k y] l IH]; simpl; intros done defs E F.
  - unfold ret in E. injection E as _ <-. unfold bind. now rewrite F.
  - unfold bind in *. destruct (f y defs) as [[y'|e'] d1]; [|discriminate].
    destruct (mapM_items f l d1) as [[ys|e'] d2] eqn:G; [|discriminate].
    unfold ret in E. injection E as _ <-.
    now rewrite (IH _ _ G F).
Qed.

Lemma resolve_unfold fuel o defs v :
  deref o defs = (Return v, defs) ->
  resolve (S fuel) o defs =
  match v with
  | Null _ | Boolean _ _ | Integer _ _ _ | Number _ _ _
  | String _ _ _ _ => ret (Same o)
  | Array _ items =>
      items' <- resolve fuel (Own items) ;;
      ret (NewArray items')
  | Object _ properties required =>
      properties' <- mapM_items (fun v => resolve fuel (Own v)) properties ;;
      ret (NewObject properties' required)
  | AllOf _ all_of default =>
      match all_of with
      | [Ref _ ref] =>
          name <- ref_name ref ;;
          getitem name ;;;
          match default with
          | Some _ => setattr_default name default
          | None => ret tt
          end ;;;
          ret (Same (Shared name))
      | _ => raise (NotImplementedError AllOf_msg)
      end
  | AnyOf _ any_of _ =>
      any_of' <- mapM (fun v => resolve fuel (Own v)) any_of ;;
      v' <- deref o ;;
      ret (NewAnyOf any_of' (default_of v'))
  | Ref _ ref =>
      name <- ref_name ref ;;
      getitem name ;;;
      resolve fuel (Shared name)
  end defs.
Proof.
  intros E. simpl. unfold bind at 1. rewrite E. reflexivity.
Qed.

(** An exception raised by a call that [c] makes itself leaves [c]. *)
Lemma calls_raise c c' e defs'' :
  calls c c' -> run c' = (Raise e, defs'') -> run c = (Raise e, defs'').
Proof.
  intros C. destruct C as
      [fuel o defs base items D
      |fuel o defs base properties required earlier key v later done defs'
         D -> E
      |fuel o defs base any_of d earlier v later done defs' D -> E
      |fuel o defs base ref name v D T G];
    unfold run; intros F; rewrite (resolve_unfold _ _ D).
  - unfold bind. now rewrite F.
  - unfold bind.
    now rewrite (@mapM_items_raise _ _ (fun v => resolve fuel (Own v))
                   earlier key v later _ _ _ _ _ E F).
  - unfold bind.
    now rewrite (@mapM_raise _ _ (fun v => resolve fuel (Own v))
                   earlier v later _ _ _ _ _ E F).
  - unfold ref_name. rewrite T. unfold bind, ret, getitem. rewrite G.
    exact F.
Qed.

Lemma calls_star_raise c c' e defs'' :
  clos_refl_trans config calls c c' ->
  run c' = (Raise e, defs'') -> run c = (Raise e, defs'').
Proof.
  induction 1 as [c c' C | c | c1 c2 c3 _ IH1 _ IH2]; intros F.
  - exact (calls_raise C F).
  - exact F.
  - auto.
Qed.

(** C9: an AllOf that is not exactly one Ref raises, a Ref or the Ref of
    an AllOf whose target the table lacks raises, and an exception raised
    anywhere below a call leaves that call, the root call included: no
    tree is returned. *)
Theorem C9_resolve_fails_fast :
  (forall fuel o defs base all_of d,
      deref o defs = (Return (AllOf base all_of d), defs) ->
      (forall b r, all_of <> [Ref b r]) ->
      resolve (S fuel) o defs = (Raise (NotImplementedError AllOf_msg), defs))
  /\ (forall fuel o defs base ref name,
      deref o defs = (Return (Ref base ref), defs) ->
      ref_target ref = Some name -> Py.get name defs = None ->
      resolve (S fuel) o defs = (Raise (KeyError name), defs))
  /\ (forall fuel o defs base b ref d name,
      deref o defs = (Return (AllOf base [Ref b ref] d), defs) ->
      ref_target ref = Some name -> Py.get name defs = None ->
      resolve (S fuel) o defs = (Raise (KeyError name), defs))
  /\ (forall c c' e defs'',
      clos_refl_trans config calls c c' ->
      run c' = (Raise e, defs'') -> run c = (Raise e, defs''))
  /\ (forall fuel doc c c' e defs'',
      schema_calls fuel doc c ->
      clos_refl_trans config calls c c' ->
      run c' = (Raise e, defs'') ->
      resolve_schema (S fuel) doc = (Raise e, defs'')).
Proof.
  repeat split.
  - intros fuel o defs base all_of d D N. rewrite (resolve_unfold _ _ D).
    destruct all_of as [|[] [|]]; try reflexivity.
    exfalso. eapply N. reflexivity.
  - intros fuel o defs base ref name D T G. rewrite (resolve_unfold _ _ D).
    unfold ref_name. rewrite T. unfold bind, ret, getitem. now rewrite G.
  - intros fuel o defs base b ref d name D T G.
    rewrite (resolve_unfold _ _ D).
    unfold ref_name. rewrite T. unfold bind, ret, getitem. now rewrite G.
  - intros c c' e defs''. apply calls_star_raise.
  - intros fuel doc c c' e defs'' S C F.
    pose proof (calls_star_raise C F) as G.
    destruct S as [earlier key v later done defs' P E].
    unfold resolve_schema, bind. rewrite P.
    now rewrite (@mapM_items_raise _ _ (fun v => resolve fuel (Own v))
                   earlier key v later _ _ _ _ _ E G).
Qed.

(** ** The resolver: documents without aliases *)

Lemma list_max_In (l : list nat) n : In n l -> n <= list_max l.
Proof.
  induction l as [|m l IH]; simpl; [contradiction|].
  intros [->|I]; [lia|]. specialize (IH I). lia.
Qed.

Section WithoutAliases.
Variable rank : string -> nat.
Variable defs : Py.dict Value.
Hypothesis defs_allof_free :
  forall name w, Py.get name defs = Some w -> allof_free w = true.
Hypothesis defs_descend :
  forall name w, Py.get name defs = Some w ->
    refs_below rank defs (rank name) w.

Lemma mapM_resolved (f : Value -> M Out) l :
  (forall x, In x l -> returns_resolved defs (f x defs)) ->
  exists outs ts,
    mapM f l defs = (Return outs, defs)
    /\ (forall d, view defs (NewAnyOf outs d) = Some (AnyOf no_base ts d))
    /\ forallb resolved ts = true.
Proof.
  induction l as [|x l IH]; intros F.
  - exists [], []. repeat split.
  - destruct (F x (or_introl eq_refl)) as [out [t [E [V R]]]].
    destruct IH as [outs [ts [E' [V' R']]]].
    { intros y I. apply F. now right. }
    exists (out :: outs), (t :: ts). split; [|split].
    + simpl. unfold bind. rewrite E, E'. reflexivity.
    + intros d. specialize (V' d). simpl in *. rewrite V.
      match goal with
      | V' : option_map _ ?g = _ |- _ => destruct g; [|discriminate]
      end.
      simpl in V'. injection V' as ->. reflexivity.
    + simpl. now rewrite R, R'.
Qed.

Lemma mapM_items_resolved (f : Value -> M Out) (d : Py.dict Value) :
  (forall x, In x (Py.values d) -> returns_resolved defs (f x defs)) ->
  exists outs ts,
    mapM_items f d defs = (Return outs, defs)
    /\ (forall req,
          view defs (NewObject outs req) = Some (Object no_base ts req))
    /\ forallb (fun item : string * Value => resolved (snd item)) ts = true.
Proof.
  induction d as [|[k x] d IH]; intros F.
  - exists [], []. repeat split.
  - destruct (F x (or_introl eq_refl)) as [out [t [E [V R]]]].
    destruct IH as [outs [ts [E' [V' R']]]].
    { intros y I. apply F. now right. }
    exists ((k, out) :: outs), ((k, t) :: ts). split; [|split].
    + simpl. unfold bind. rewrite E, E'. reflexivity.
    + intros req. specialize (V' req). simpl in *. rewrite V.
      match goal with
      | V' : option_map _ ?g = _ |- _ => destruct g; [|discriminate]
      end.
      simpl in V'. injection V' as ->. reflexivity.
    + simpl. now rewrite R, R'.
Qed.

Lemma height_bound name w :
  Py.get name defs = Some w ->
  height w <= list_max (map height (Py.values defs)).
Proof.
  intros G. apply list_max_In, in_map.
  apply get_In in G. change w with (snd (name, w)). now apply in_map.
Qed.

Lemma deref_view o v :
  deref o defs = (Return v, defs) -> view defs (Same o) = Some v.
Proof.
  destruct o as [w|name]; simpl.
  - unfold ret. congruence.
  - unfold getitem. destruct (Py.get name defs); congruence.
Qed.

Lemma resolve_returns_resolved : forall r v o fuel,
  deref o defs = (Return v, defs) ->
  allof_free v = true ->
  refs_below rank defs r v ->
  height v + r * list_max (map height (Py.values defs)) <= fuel ->
  returns_resolved defs (resolve fuel o defs).
Proof.
  induction r as [r IHr] using lt_wf_ind.
  induction v as [ | | | | | base items IH
                 | base properties required IH | | base any_of d IH
                 | base ref ]
    using Value_nested_ind; intros o fuel D A B F;
    try discriminate A;
    (destruct fuel as [|fuel]; [simpl in F; lia|]);
    rewrite (resolve_unfold _ _ D).
  1-5: (eexists; eexists; split; [reflexivity|]; split;
        [apply deref_view, D | reflexivity]).
  - destruct (IH (Own items) fuel eq_refl A B) as [out [t [E [V R]]]].
    { simpl in F. lia. }
    exists (NewArray out), (Array no_base t). unfold bind. rewrite E.
    split; [reflexivity|]. simpl. rewrite V. split; [reflexivity | exact R].
  - destruct (@mapM_items_resolved (fun v => resolve fuel (Own v)) properties)
      as [outs [ts [E [V R]]]].
    { intros x I. rewrite Forall_forall in IH.
      apply (IH x I (Own x) fuel eq_refl).
      - simpl in A. rewrite forallb_forall in A.
        unfold Py.values in I. apply in_map_iff in I.
        destruct I as [item [<- I]]. apply (A item I).
      - intros ref Iref. apply B. simpl. apply in_flat_map.
        unfold Py.values in I. apply in_map_iff in I.
        destruct I as [item [<- I]]. exists item. split; assumption.
      - assert (height x <= list_max (map (fun item : string * Value =>
                   height (snd item)) properties)) as L.
        { apply list_max_In. unfold Py.values in I. apply in_map_iff in I.
          destruct I as [item [<- I]].
          apply (in_map (fun item : string * Value => height (snd item))), I. }
        simpl in F. lia. }
    exists (NewObject outs required), (Object no_base ts required).
    unfold bind. rewrite E. split; [reflexivity|]. split; [apply V | exact R].
  - destruct (@mapM_resolved (fun v => resolve fuel (Own v)) any_of)
      as [outs [ts [E [V R]]]].
    { intros x I. rewrite Forall_forall in IH.
      apply (IH x I (Own x) fuel eq_refl).
      - simpl in A. rewrite forallb_forall in A. apply (A x I).
      - intros ref Iref. apply B. simpl. apply in_flat_map.
        exists x. split; assumption.
      - assert (height x <= list_max (map height any_of)) as L
            by (apply list_max_In, in_map, I).
        simpl in F. lia. }
    exists (NewAnyOf outs d), (AnyOf no_base ts d).
    unfold bind. rewrite E, D. split; [reflexivity|].
    split; [apply V | exact R].
  - destruct (B ref (or_introl eq_refl)) as [name [w [T [G L]]]].
    unfold ref_name. rewrite T. unfold bind, ret, getitem. rewrite G.
    apply (IHr (rank name) L w (Shared name) fuel).
    + simpl. unfold getitem. now rewrite G.
    + eapply defs_allof_free; exact G.
    + eapply defs_descend; exact G.
    + pose proof G as Hw. apply height_bound in Hw. simpl in F.
      assert (S (rank name) * list_max (map height (Py.values defs))
              <= r * list_max (map height (Py.values defs))) as M
          by (apply Nat.mul_le_mono_r; lia).
      lia.
Qed.

End WithoutAliases.

Lemma get_keys {V} name (w : V) d :
  Py.get name d = Some w -> In name (Py.keys d).
Proof.
  intros G. apply get_In in G. change name with (fst (name, w)).
  now apply in_map.
Qed.

Lemma targets_bound_get defs v ref :
  targets_bound defs v = true -> In ref (refs v) ->
  exists name w, ref_target ref = Some name /\ Py.get name defs = Some w.
Proof.
  unfold targets_bound. rewrite forallb_forall. intros T I.
  specialize (T ref I). destruct (ref_target ref) as [name|]; [|discriminate].
  unfold Py.mem in T.
  destruct (Py.get name defs) as [w|] eqn:G; [|discriminate].
  now exists name, w.
Qed.

(** On a well-formed document that holds no AllOf, and with a stack deep
    enough, [resolve] returns a tree without Ref or AllOf and leaves the
    definitions table as it was. *)
Theorem resolve_schema_without_aliases rank doc fuel :
  well_formed rank doc = true ->
  forallb allof_free
    (Py.values (definitions doc) ++ Py.values (schema_properties doc)) = true ->
  enough_fuel rank doc <= fuel ->
  returns_resolved (definitions doc) (resolve_schema fuel doc).
Proof.
  unfold well_formed, enough_fuel. cbv zeta.
  rewrite !andb_true_iff, !forallb_app, !andb_true_iff, !forallb_forall.
  intros [[_ [Td Tp]] Ac] [Ad Ap] F.
  set (defs := definitions doc) in *.
  assert (forall name w,
             Py.get name defs = Some w -> allof_free w = true) as H1.
  { intros name w G. apply Ad. apply get_In in G.
    change w with (snd (name, w)). now apply in_map. }
  assert (forall name w, Py.get name defs = Some w ->
                         refs_below rank defs (rank name) w) as H2.
  { intros name w G ref I. pose proof G as Iw. apply get_In in Iw.
    assert (In w (Py.values defs)) as Iv
        by (change w with (snd (name, w)); now apply in_map).
    destruct (@targets_bound_get defs w ref (Td w Iv) I) as [t [x [T Gx]]].
    exists t, x. repeat split; trivial.
    unfold acyclic in Ac. rewrite forallb_forall in Ac.
    specialize (Ac (name, w) Iw). rewrite forallb_forall in Ac.
    specialize (Ac ref I). simpl in Ac. rewrite T in Ac.
    now apply Nat.ltb_lt. }
  destruct fuel as [|fuel]; [lia|].
  destruct (@mapM_items_resolved defs (fun v => resolve fuel (Own v))
              (schema_properties doc)) as [outs [ts [E [V R]]]].
  { intros x I.
    apply (@resolve_returns_resolved rank defs H1 H2
             (S (list_max (map rank (Py.keys defs)))) x (Own x) fuel eq_refl).
    - apply Ap, I.
    - intros ref Iref.
      destruct (@targets_bound_get defs x ref (Tp x I) Iref) as [t [w [T G]]].
      exists t, w. repeat split; trivial.
      apply get_keys in G. apply (in_map rank) in G.
      apply list_max_In in G. lia.
    - assert (height x
              <= list_max (map height (Py.values (schema_properties doc))))
        as L by (apply list_max_In, in_map, I).
      lia. }
  exists (NewObject outs (schema_required doc)),
         (Object no_base ts (schema_required doc)).
  unfold resolve_schema, bind. fold defs. rewrite E.
  split; [reflexivity|]. split; [apply V | exact R].
Qed.

(** ** The resolver: what an alias returns *)

(** C1: on a well-formed document whose property aliases, through an
    AllOf, a definition that refers to another definition, [resolve]
    returns the aliased definition as it stands: the reference inside it
    is still there. *)
Theorem C1_alias_target_not_resolved : forall fuel,
  well_formed Sample.nested_alias_rank Sample.nested_alias = true
  /\ load (S (S fuel)) Sample.nested_alias =
     Some (Object no_base
             [("m", Object no_base
                      [("inner", Ref no_base "#/$defs/Inner")] ["inner"])]
             ["m"])
  /\ resolved
       (Object no_base
          [("m", Object no_base
                   [("inner", Ref no_base "#/$defs/Inner")] ["inner"])]
          ["m"]) = false.
Proof. intros fuel. repeat split. Qed.

(** C2: resolving a document in which an AllOf with a default aliases a
    definition assigns the default to the definition itself.  The table
    of the document is changed by the call, a plain reference to the same
    definition shows the default too, and resolving the document a second
    time gives another tree than the first time. *)
Theorem C2_resolve_assigns_to_definition : forall fuel,
  definitions Sample.aliased_default =
    [("Name", String no_base None None None)]
  /\ resolve_schema (S (S (S fuel))) Sample.aliased_default =
     (Return (NewObject [("first", Same (Shared "Name"));
                         ("last", Same (Shared "Name"))] ["last"]),
      [("Name", String no_base None None (Some (SStr "d")))])
  /\ load (S (S (S fuel))) Sample.aliased_default =
     Some (Object no_base
             [("first", String no_base None None (Some (SStr "d")));
              ("last", String no_base None None (Some (SStr "d")))]
             ["last"])
  /\ (exists out defs',
        resolve_schema (4 + fuel) Sample.aliased_union = (Return out, defs')
        /\ view defs' out =
           Some (Object no_base
                   [("plain", AnyOf no_base [Sample.string_; Sample.null] None);
                    ("aliased", AnyOf no_base [Sample.string_; Sample.null]
                                  (Some (SStr "d")))]
                   ["plain"])
        /\ load (4 + fuel) (with_definitions defs' Sample.aliased_union) =
           Some (Object no_base
                   [("plain", AnyOf no_base [Sample.string_; Sample.null]
                                (Some (SStr "d")));
                    ("aliased", AnyOf no_base [Sample.string_; Sample.null]
                                  (Some (SStr "d")))]
                   ["plain"])).
Proof.
  intros fuel. split; [reflexivity|]. split; [reflexivity|].
  split; [reflexivity|]. eexists. eexists.
  split; [reflexivity|]. split; reflexivity.
Qed.

(** ** Instances of the theorems *)

Lemma C4_anyof_right_witness :
  type Sample.string_ <> CAnyOf
  /\ @issubset first_seen_order Sample.string_
       (Sample.any_of [Sample.integer; Sample.string_]) ["a"] = []
  /\ type Sample.null <> CAnyOf
  /\ @issubset first_seen_order Sample.null
       (Sample.any_of [Sample.integer; Sample.string_]) ["a"] =
     [mkError ["a"] Sample.null Sample.integer default_msg;
      mkError ["a"] Sample.null Sample.string_ default_msg].
Proof.
  split; [discriminate|]. split.
  - apply (@C4_anyof_right_existential first_seen_order Sample.string_
             no_base [Sample.integer; Sample.string_] None ["a"]).
    + discriminate.
    + apply Exists_cons_tl, Exists_cons_hd. reflexivity.
  - split; [discriminate|].
    apply (@C4_anyof_right_existential first_seen_order Sample.null
             no_base [Sample.integer; Sample.string_] None ["a"]).
    + discriminate.
    + repeat constructor; discriminate.
Defined.

Lemma C10_empty_anyof_witness :
  type Sample.string_ <> CAnyOf
  /\ @issubset first_seen_order Sample.string_ (Sample.any_of []) [] = [].
Proof.
  split; [discriminate|].
  apply (@C10_empty_anyof_right first_seen_order). discriminate.
Defined.

Lemma C8_scalar_witness :
  In (type Sample.integer) [CNull; CBoolean; CInteger; CNumber]
  /\ type Sample.number <> CAnyOf
  /\ @issubset first_seen_order Sample.integer Sample.number ["a"] =
     [mkError ["a"] Sample.integer Sample.number default_msg]
  /\ @issubset first_seen_order Sample.integer
       (Integer no_base (Some [1%Z]) None) ["a"] = [].
Proof.
  assert (In (type Sample.integer) [CNull; CBoolean; CInteger; CNumber]) as I
      by (simpl; auto).
  split; [exact I|]. split; [discriminate|]. split.
  - refine (proj1 (proj2 (@C8_scalar_exact_class first_seen_order
             Sample.integer Sample.number ["a"] I _)) _); discriminate.
  - refine (proj2 (proj1 (@C8_scalar_exact_class first_seen_order
             Sample.integer (Integer no_base (Some [1%Z]) None) ["a"] I _))
             eq_refl).
    discriminate.
Defined.

Lemma C7_reflexive_witness :
  resolved Sample.StrOrNoneNested = true
  /\ dicts_ok Sample.StrOrNoneNested
  /\ @issubset first_seen_order Sample.StrOrNoneNested
       Sample.StrOrNoneNested [] = [].
Proof.
  assert (dicts_ok Sample.StrOrNoneNested) as D.
  { simpl. unfold Py.unique_keys. simpl.
    repeat split; repeat constructor; simpl; tauto. }
  split; [reflexivity|]. split; [exact D|].
  apply (@C7_issubset_reflexive first_seen_order); [reflexivity | exact D].
Defined.

(** C5, as the specification words it: the message would list the
    differing members in sorted order.  When the difference of the enums
    ["a"; "b"] and ["c"] is iterated with "b" first, the message reads
    "b, a". *)
Lemma C5_enum_message_not_sorted :
  let a := Sample.enum ["a"; "b"] in
  let b := Sample.enum ["c"] in
  @issubset last_seen_order a b [] =
    [mkError [] a b "Following keys not in a: b, a"]
  /\ spec_sorted (@Py.difference last_seen_order ["a"; "b"] ["c"])
     = ["a"; "b"]
  /\ @issubset last_seen_order a b [] <>
     [mkError [] a b
        ("Following keys not in a: "
         ++ Py.join ", "
              (spec_sorted (@Py.difference last_seen_order ["a"; "b"] ["c"])))]
  /\ @issubset first_seen_order a b [] <> @issubset last_seen_order a b [].
Proof.
  cbv zeta. split; [reflexivity|]. split; [reflexivity|].
  split; vm_compute; discriminate.
Qed.

Lemma resolve_schema_without_aliases_witness :
  well_formed (fun _ => 0) Sample.StrOrNoneNested_document = true
  /\ returns_resolved (definitions Sample.StrOrNoneNested_document)
       (resolve_schema 7 Sample.StrOrNoneNested_document)
  /\ load 7 Sample.StrOrNoneNested_document = Some Sample.StrOrNoneNested.
Proof.
  split; [reflexivity|]. split; [|reflexivity].
  apply (@resolve_schema_without_aliases (fun _ => 0)
           Sample.StrOrNoneNested_document 7);
    [reflexivity | reflexivity | vm_compute; repeat constructor].
Defined.

(** ** The expectations of the test suite *)

(** [test_basic_errors], [test_missing_key], [test_enum_superset] and
    [test_nested_union_errors]. *)
Example test_suite_expectations :
  map Error_str
    (@issubset first_seen_order
       (Sample.object [("a", Sample.string_)] ["a"])
       (Sample.object [("a", Sample.integer)] ["a"]) [])
  = ["At .a Types don't match - a: String b: Integer"]
  /\ map Error_str
       (@issubset first_seen_order
          (Sample.object [("a", Sample.string_)] ["a"])
          (Sample.object [("a", Sample.string_); ("b", Sample.number)]
             ["a"; "b"]) [])
     = ["At .b Key: b not in a - a: Object b: Object"]
  /\ map Error_str
       (@issubset first_seen_order
          (Sample.object [("choices", Sample.enum ["a"; "b"; "c"])] ["choices"])
          (Sample.object [("choices", Sample.enum ["a"; "b"])] ["choices"]) [])
     = ["At .choices Following keys not in a: c - a: String b: String"]
  /\ map Error_str
       (@issubset first_seen_order Sample.StrOrNoneNested
          Sample.IntOrStrNested [])
     = ["At .b.a Types don't match - a: Null b: Integer";
        "At .b.a Types don't match - a: Null b: String";
        "At .b Types don't match - a: Object b: Null"].
Proof. repeat split. Qed.

(** ** The subset checker: further properties *)

(** Induction along the calls of [issubset]. *)
Section IssubsetInd.
Variable P : Value -> Value -> Prop.
Hypothesis left_union : forall base a_any_of d b,
  Forall (fun a_value => P a_value b) a_any_of -> P (AnyOf base a_any_of d) b.
Hypothesis right_union : forall a base b_any_of d,
  type a <> CAnyOf ->
  Forall (fun b_value => P a b_value) b_any_of -> P a (AnyOf base b_any_of d).
Hypothesis arrays : forall base_a a_items base_b b_items,
  P a_items b_items -> P (Array base_a a_items) (Array base_b b_items).
Hypothesis objects : forall base_a a_properties a_required
                            base_b b_properties b_required,
  (forall key a_value b_value,
      In (key, b_value) b_properties ->
      Py.get key a_properties = Some a_value -> P a_value b_value) ->
  P (Object base_a a_properties a_required)
    (Object base_b b_properties b_required).
Hypothesis others : forall a b,
  type a <> CAnyOf -> type b <> CAnyOf ->
  (type a = CArray -> type b <> CArray) ->
  (type a = CObject -> type b <> CObject) ->
  P a b.

Lemma issubset_ind : forall x y, P x y.
Proof.
  intros x.
  induction x as [ | | | | | base_a a_items IHa
                 | base_a a_properties a_required IHa |
                 | base_a a_any_of d_a IHa | ] using Value_nested_ind;
    intros y.
  9: { apply left_union. rewrite Forall_forall in *. auto. }
  all: induction y as [ | | | | | base_b b_items IHb
                      | base_b b_properties b_required IHb |
                      | base_b b_any_of d_b IHb | ] using Value_nested_ind.
  all: try (apply right_union; [discriminate | exact IHb]).
  all: try (apply others; simpl; congruence).
  - apply arrays, IHa.
  - apply objects. intros key a_value b_value _ G.
    rewrite Forall_forall in IHa. apply IHa.
    apply get_In in G. change a_value with (snd (key, a_value)).
    now apply in_map.
Qed.
End IssubsetInd.

Section Paths.
Context `{Py.SetOrder}.

Lemma truthy_map {A B} (f : A -> B) l : Py.truthy (map f l) = Py.truthy l.
Proof. destruct l; reflexivity. Qed.

Lemma forallb_truthy_map {A B} (f : A -> B) (ls : list (list A)) :
  forallb Py.truthy (map (map f) ls) = forallb Py.truthy ls.
Proof.
  induction ls as [|l ls IH]; simpl; trivial. now rewrite truthy_map, IH.
Qed.

Lemma concat_map_map {A B} (f : A -> B) (ls : list (list A)) :
  List.concat (map (map f) ls) = map f (List.concat ls).
Proof. now rewrite concat_map. Qed.

(** The path given to [issubset] is only ever a prefix: the errors of a
    check started at [prefix ++ p] are those of the check started at [p],
    each with [prefix] before its path. *)
Theorem issubset_path_prefix : forall a b prefix p,
  issubset a b (prefix ++ p) = map (under prefix) (issubset a b p).
Proof.
  intros a b. pattern a, b. apply issubset_ind; clear a b.
  - intros base vs d b IH prefix p. rewrite !issubset_AnyOf_left.
    rewrite !flat_map_concat_map, <- concat_map_map, map_map.
    f_equal. apply map_ext_in. intros v I.
    rewrite Forall_forall in IH. apply IH, I.
  - intros a base ws d N IH prefix p.
    rewrite !issubset_AnyOf_right by exact N. cbv zeta.
    rewrite Forall_forall in IH.
    assert (map (fun w => issubset a w (prefix ++ p)) ws
            = map (map (under prefix)) (map (fun w => issubset a w p) ws)) as E.
    { rewrite map_map. apply map_ext_in. intros w I. apply IH, I. }
    rewrite E, concat_map_map.
    rewrite forallb_truthy_map.
    destruct (forallb _ _); reflexivity.
  - intros base_a ia base_b ib IH prefix p. simpl.
    rewrite <- app_assoc. apply IH.
  - intros base_a pa ra base_b pb rb IH prefix p. rewrite !issubset_Object.
    rewrite !flat_map_concat_map, <- concat_map_map, map_map.
    f_equal. apply map_ext_in. intros [key bv] I. simpl.
    rewrite map_app. f_equal.
    + destruct (_ && _); simpl; [|reflexivity].
      unfold under. simpl. now rewrite app_assoc.
    + destruct (Py.get key pa) as [av|] eqn:G; [|reflexivity].
      rewrite <- app_assoc. apply (IH key av bv I G).
  - intros a b Na Nb NA NO prefix p.
    destruct a; try (contradiction Na; reflexivity);
      destruct b; try (contradiction Nb; reflexivity);
      try (exfalso; apply NA; reflexivity);
      try (exfalso; apply NO; reflexivity);
      simpl; try reflexivity.
    all: repeat match goal with
         | |- context [if ?c then _ else _] => destruct c; simpl
         | |- context [match ?c with Some _ => _ | None => _ end] =>
             destruct c; simpl
         end; reflexivity.
Qed.
End Paths.

Lemma get_map_values {V W} (f : V -> W) key (d : Py.dict V) :
  Py.get key (map (fun item : string * V => (fst item, f (snd item))) d)
  = option_map f (Py.get key d).
Proof.
  induction d as [|[k v] d IH]; simpl; trivial.
  destruct (String.eqb k key); simpl; trivial.
Qed.

Lemma keys_map_values {V W} (f : V -> W) (d : Py.dict V) :
  Py.keys (map (fun item : string * V => (fst item, f (snd item))) d)
  = Py.keys d.
Proof. unfold Py.keys. rewrite map_map. reflexivity. Qed.

Lemma mem_map_values {V W} (f : V -> W) key (d : Py.dict V) :
  Py.mem key (map (fun item : string * V => (fst item, f (snd item))) d)
  = Py.mem key d.
Proof.
  unfold Py.mem. rewrite get_map_values. now destruct (Py.get key d).
Qed.

Lemma type_bare v : type (bare v) = type v.
Proof. destruct v; reflexivity. Qed.

Lemma type_bare_optional v : type (bare_optional v) = type v.
Proof. destruct v; reflexivity. Qed.

Lemma map_flat_map {A B C} (g : B -> C) (f : A -> list B) l :
  map g (flat_map f l) = flat_map (fun x => map g (f x)) l.
Proof.
  induction l as [|x l IH]; simpl; trivial. now rewrite map_app, IH.
Qed.

Lemma flat_map_map {A B C} (f : B -> list C) (g : A -> B) l :
  flat_map f (map g l) = flat_map (fun x => f (g x)) l.
Proof. induction l as [|x l IH]; simpl; trivial. now rewrite IH. Qed.

Lemma flat_map_ext_In {A B} (f g : A -> list B) l :
  (forall x, In x l -> f x = g x) -> flat_map f l = flat_map g l.
Proof.
  induction l as [|x l IH]; simpl; intros E; trivial.
  rewrite (E x) by now left. f_equal. apply IH. intros y I. apply E. now right.
Qed.

Lemma truthy_map_eq {A B C} (f : A -> C) (g : B -> C) l1 l2 :
  map f l1 = map g l2 -> Py.truthy l1 = Py.truthy l2.
Proof. destruct l1, l2; simpl; intros E; congruence. Qed.

Section Documentation.
Context `{Py.SetOrder}.

(** The report of a check, line by line, is the same when titles,
    descriptions, defaults and the enums of Integer and Number nodes are
    removed from both trees, and the lists of required properties from
    the left one. *)
Theorem issubset_ignores_documentation : forall a b p,
  map Error_str (issubset a b p)
  = map Error_str (issubset (bare_optional a) (bare b) p).
Proof.
  intros a b. pattern a, b. apply issubset_ind; clear a b.
  - intros base vs d b IH p. simpl bare_optional.
    rewrite !issubset_AnyOf_left, flat_map_map, !map_flat_map.
    apply flat_map_ext_In. rewrite Forall_forall in IH.
    intros v I. apply IH, I.
  - intros a base ws d N IH p. simpl bare.
    rewrite !issubset_AnyOf_right
      by (try rewrite type_bare_optional; exact N).
    cbv zeta. rewrite map_map. rewrite Forall_forall in IH.
    set (L1 := map (fun w => issubset a w p) ws).
    set (L2 := map (fun w => issubset (bare_optional a) (bare w) p) ws).
    assert (map (map Error_str) L1 = map (map Error_str) L2) as E.
    { unfold L1, L2. rewrite !map_map. apply map_ext_in.
      intros w I. apply IH, I. }
    assert (forallb Py.truthy L1 = forallb Py.truthy L2) as T.
    { rewrite <- (forallb_truthy_map Error_str L1), E.
      apply forallb_truthy_map. }
    rewrite T. destruct (forallb Py.truthy L2); [|reflexivity].
    now rewrite <- !concat_map_map, E.
  - intros base_a ia base_b ib IH p. simpl. apply IH.
  - intros base_a pa ra base_b pb rb IH p. simpl bare. simpl bare_optional.
    rewrite !issubset_Object. rewrite flat_map_map, !map_flat_map.
    apply flat_map_ext_In. intros [key bv] I. simpl fst. simpl snd.
    rewrite !map_app. rewrite mem_map_values, keys_map_values.
    rewrite get_map_values. f_equal.
    + destruct (_ && _); reflexivity.
    + destruct (Py.get key pa) as [av|] eqn:G; simpl; [|reflexivity].
      apply (IH key av bv I G).
  - intros a b Na Nb NA NO p.
    destruct a; try (contradiction Na; reflexivity);
      destruct b; try (contradiction Nb; reflexivity);
      try (exfalso; apply NA; reflexivity);
      try (exfalso; apply NO; reflexivity);
      simpl issubset; simpl bare; simpl bare_optional;
      try reflexivity.
    all: cbn [issubset].
    all: repeat match goal with
         | |- context [if ?c then _ else _] => destruct c
         | |- context [match ?c with Some _ => _ | None => _ end] =>
             destruct c
         end; reflexivity.
Qed.
End Documentation.

Section Reports.
Context `{Py.SetOrder}.

(** The two nodes an error names occur in the two trees compared. *)
Theorem issubset_reports_subnodes : forall x y p e,
  In e (issubset x y p) -> subnode (a e) x /\ subnode (b e) y.
Proof.
  intros x y. pattern x, y. apply issubset_ind; clear x y.
  - intros base vs d y IH p e I. rewrite issubset_AnyOf_left in I.
    apply in_flat_map in I. destruct I as [v [Iv I]].
    rewrite Forall_forall in IH. destruct (IH v Iv p e I) as [A B].
    split; [eapply subnode_variant; eassumption | exact B].
  - intros x base ws d N IH p e I.
    rewrite issubset_AnyOf_right in I by exact N. cbv zeta in I.
    destruct (forallb _ _); [|contradiction].
    apply in_concat in I. destruct I as [l [Il I]].
    apply in_map_iff in Il. destruct Il as [w [<- Iw]].
    rewrite Forall_forall in IH. destruct (IH w Iw p e I) as [A B].
    split; [exact A | eapply subnode_variant; eassumption].
  - intros base_a ia base_b ib IH p e I. simpl in I.
    destruct (IH _ _ I) as [A B].
    split; apply subnode_items; assumption.
  - intros base_a pa ra base_b pb rb IH p e I.
    rewrite issubset_Object in I. apply in_flat_map in I.
    destruct I as [[key bv] [Ib I]]. simpl in I.
    apply in_app_or in I. destruct I as [I|I].
    + destruct (_ && _); [|contradiction].
      destruct I as [<-|[]]. split; apply subnode_root.
    + destruct (Py.get key pa) as [av|] eqn:G; [|contradiction].
      destruct (IH key av bv Ib G _ _ I) as [A B].
      split; eapply subnode_property; try eassumption.
      apply get_In, G.
  - intros x y Na Nb NA NO p e I.
    assert (a e = x /\ b e = y) as [<- <-].
    { destruct x; try (contradiction Na; reflexivity);
        destruct y; try (contradiction Nb; reflexivity);
        try (exfalso; apply NA; reflexivity);
        try (exfalso; apply NO; reflexivity);
        simpl in I;
        repeat match type of I with
          | context [if ?c then _ else _] => destruct c; simpl in I
          | context [match ?c with Some _ => _ | None => _ end] =>
              destruct c; simpl in I
          end;
        try contradiction;
        destruct I as [<-|[]]; split; reflexivity. }
    split; apply subnode_root.
Qed.

(** Two String nodes of different formats give the one error "String
    formats do not match", whatever their enums. *)
Theorem issubset_format_mismatch base_a a_enum a_format d_a
        base_b b_enum b_format d_b p :
  a_format <> b_format ->
  issubset (String base_a a_enum a_format d_a)
           (String base_b b_enum b_format d_b) p =
  [mkError p (String base_a a_enum a_format d_a)
     (String base_b b_enum b_format d_b) "String formats do not match"].
Proof.
  intros N. simpl.
  assert (format_eqb a_format b_format = false) as ->; [|reflexivity].
  destruct a_format as [f|], b_format as [g|]; simpl; trivial.
  - apply String.eqb_neq. congruence.
  - contradiction N. reflexivity.
Qed.

Lemma right_union_accepts x base ws d p :
  type x <> CAnyOf -> ws <> [] ->
  issubset x (AnyOf base ws d) p = [] ->
  exists w, In w ws /\ issubset x w p = [].
Proof.
  intros N W E. rewrite issubset_AnyOf_right in E by exact N.
  cbv zeta in E.
  destruct (forallb Py.truthy (map (fun w => issubset x w p) ws)) eqn:F.
  - destruct ws as [|w ws]; [contradiction W; reflexivity|].
    simpl in F, E. apply andb_true_iff in F. destruct F as [F _].
    apply app_eq_nil in E. destruct E as [E _]. rewrite E in F.
    discriminate.
  - clear E. induction ws as [|w ws IH]; [discriminate|].
    simpl in F. apply andb_false_iff in F. destruct F as [F|F].
    + exists w. split; [now left | now apply truthy_false_iff].
    + destruct ws as [|w' ws']; [discriminate|].
      destruct IH as [v [I E]]; [discriminate | exact F|].
      exists v. split; [now right | exact E].
Qed.

(** Adding variants to a union on the right that is not empty never
    makes a check fail that passed. *)
Theorem issubset_wider_union x : forall base ws d base' ws' d' p,
  ws <> [] -> incl ws ws' ->
  issubset x (AnyOf base ws d) p = [] ->
  issubset x (AnyOf base' ws' d') p = [].
Proof.
  induction x as [ | | | | | | | | base_x vs d_x IH | ]
    using Value_nested_ind; intros bb ws dd bb' ws' dd' p W I E.
  9: { rewrite issubset_AnyOf_left in *.
       apply flat_map_nil. intros v Iv. rewrite Forall_forall in IH.
       apply (IH v Iv bb ws dd bb' ws' dd' p W I).
       rewrite flat_map_concat_map, concat_nil_iff, Forall_map in E.
       rewrite Forall_forall in E. apply E, Iv. }
  all: apply right_union_accepts in E; [|discriminate | exact W].
  all: destruct E as [w [Iw E]].
  all: apply issubset_into_variant with (b_value := w); auto.
Qed.
End Reports.

Lemma mapM_items_keys {A B} (f : A -> M B) (l : Py.dict A) :
  forall defs outs defs',
    mapM_items f l defs = (Return outs, defs') -> Py.keys outs = Py.keys l.
Proof.
  induction l as [|[k x] l IH]; simpl; intros defs outs defs' E.
  - injection E as <- _. reflexivity.
  - unfold bind in E. destruct (f x defs) as [[y|e] d1]; [|discriminate].
    destruct (mapM_items f l d1) as [[ys|e] d2] eqn:E'; [|discriminate].
    injection E as <- _. simpl. f_equal. eapply IH, E'.
Qed.

Lemma view_NewObject_keys defs outs req t :
  view defs (NewObject outs req) = Some t ->
  exists ps, t = Object no_base ps req /\ Py.keys ps = Py.keys outs.
Proof.
  simpl.
  match goal with
  | |- option_map _ ?g = _ -> _ => assert (forall ps, g = Some ps ->
        Py.keys ps = Py.keys outs) as K; [|destruct g as [ps|]; [|discriminate]]
  end.
  - induction outs as [|[k x] outs IH]; intros ps.
    + intros [= <-]. reflexivity.
    + destruct (view defs x); [|discriminate].
      match goal with
      | |- match ?g with _ => _ end = _ -> _ => destruct g; [|discriminate]
      end.
      intros [= <-]. simpl. f_equal. now apply IH.
  - simpl. intros [= <-]. exists ps. split; [reflexivity | now apply K].
Qed.

(** What [load] returns is an Object without title that has the
    property names of the document, in their order, and its required
    list. *)
Theorem load_keeps_properties fuel doc t :
  load fuel doc = Some t ->
  exists properties,
    t = Object no_base properties (schema_required doc)
    /\ Py.keys properties = Py.keys (schema_properties doc).
Proof.
  unfold load. destruct (resolve_schema fuel doc) as [[out|e] defs'] eqn:E;
    [|discriminate].
  intros V. destruct fuel as [|fuel]; [discriminate|].
  simpl in E. unfold bind in E.
  destruct (mapM_items _ _ _) as [[outs|e] d1] eqn:E'; [|discriminate].
  injection E as <- <-. apply mapM_items_keys in E'.
  apply view_NewObject_keys in V. destruct V as [ps [-> K]].
  exists ps. split; [reflexivity | congruence].
Qed.

Section Edge.
Context `{Py.SetOrder}.

Lemma In_mem {V} key (v : V) d : In (key, v) d -> Py.mem key d = true.
Proof.
  unfold Py.mem. induction d as [|[k w] d IH]; simpl; [contradiction|].
  intros [E|I].
  - injection E as -> ->. now rewrite String.eqb_refl.
  - destruct (String.eqb k key); [reflexivity | auto].
Qed.

Lemma contains_filter key (f : string -> bool) l :
  f key = true ->
  Py.contains key (filter f l) = Py.contains key l.
Proof.
  intros F. unfold Py.contains. induction l as [|x l IH]; simpl; trivial.
  destruct (f x) eqn:Fx; simpl.
  - now rewrite IH.
  - rewrite IH. destruct (String.eqb key x) eqn:E; [|reflexivity].
    apply String.eqb_eq in E. congruence.
Qed.

(** The names that [b] requires without declaring them as properties
    play no role: the report is the same without them. *)
Theorem issubset_undeclared_required base_a a_properties a_required
        base_b b_properties b_required p :
  map Error_str
    (issubset (Object base_a a_properties a_required)
       (Object base_b b_properties b_required) p)
  = map Error_str
      (issubset (Object base_a a_properties a_required)
         (Object base_b b_properties
            (filter (fun key => Py.mem key b_properties) b_required)) p).
Proof.
  rewrite !issubset_Object. cbv zeta. rewrite !map_flat_map.
  apply flat_map_ext_In. intros [key bv] I. simpl.
  rewrite contains_filter by (eapply In_mem, I).
  rewrite !map_app. f_equal.
  destruct (_ && _); reflexivity.
Qed.

(** Between two nodes that are not unions: an AllOf or a Ref on the
    left gives the one error "Unknown type"; otherwise two different
    classes give the one error "Types don't match"; so a check without
    error compared two nodes of the same class. *)
Theorem issubset_class_mismatch x y p :
  type x <> CAnyOf -> type y <> CAnyOf ->
  (In (type x) [CAllOf; CRef] ->
   issubset x y p = [mkError p x y "Unknown type"])
  /\ (~ In (type x) [CAllOf; CRef] -> type x <> type y ->
      issubset x y p = [mkError p x y default_msg])
  /\ (issubset x y p = [] -> type x = type y).
Proof.
  intros Nx Ny. split; [|split].
  - intros I. destruct x; simpl in I; try (exfalso; intuition discriminate);
      destruct y; try (contradiction Ny; reflexivity); reflexivity.
  - intros I N. destruct x; try (contradiction Nx; reflexivity);
      try (exfalso; apply I; simpl; auto; fail);
      destruct y; try (contradiction Ny; reflexivity);
      try (contradiction N; reflexivity); reflexivity.
  - destruct x; try (contradiction Nx; reflexivity);
      destruct y; try (contradiction Ny; reflexivity);
      simpl; intros E; try discriminate; reflexivity.
Qed.
End Edge.

(** ** References *)








(** ** The table *)

Lemma get_set_same {V} name (v v' : V) d :
  Py.get name d = Some v -> Py.get name (Py.set name v' d) = Some v'.
Proof.
  induction d as [|[k w] d IH]; simpl; [discriminate|].
  destruct (String.eqb k name) eqn:E; simpl; rewrite E; auto.
Qed.

Lemma get_set_other {V} name other (v' : V) d :
  other <> name -> Py.get other (Py.set name v' d) = Py.get other d.
Proof.
  intros N. induction d as [|[k w] d IH]; simpl; [reflexivity|].
  destruct (String.eqb k name) eqn:E; simpl.
  - apply String.eqb_eq in E. subst k.
    assert (String.eqb name other = false) as ->; [|reflexivity].
    apply String.eqb_neq. congruence.
  - now rewrite IH.
Qed.

Lemma keys_set {V} name (v' : V) d : Py.keys (Py.set name v' d) = Py.keys d.
Proof.
  induction d as [|[k w] d IH]; simpl; [reflexivity|].
  destruct (String.eqb k name); simpl; [reflexivity|]. f_equal. exact IH.
Qed.

Lemma with_default_class d v v' :
  with_default d v = Some v' -> type v' = type v /\ default_of v' = d.
Proof. destruct v; simpl; intros [= <-]; split; reflexivity. Qed.

(** An AllOf with a default, on a definition whose class has a default:
    [resolve] returns the definition itself, which now carries the
    default of the AllOf; the class of the definition, the names of the
    table and every other entry are as before. *)
Theorem resolve_alias_with_default fuel base b ref d name v v' defs :
  ref_target ref = Some name ->
  Py.get name defs = Some v ->
  with_default (Some d) v = Some v' ->
  let result := resolve (S fuel) (Own (AllOf base [Ref b ref] (Some d))) defs in
  fst result = Return (Same (Shared name))
  /\ Py.get name (snd result) = Some v'
  /\ type v' = type v /\ default_of v' = Some d
  /\ Py.keys (snd result) = Py.keys defs
  /\ forall other, other <> name ->
       Py.get other (snd result) = Py.get other defs.
Proof.
  intros T G W result.
  assert (result = (Return (Same (Shared name)), Py.set name v' defs)) as ->.
  { subst result. simpl. unfold bind, ret, ref_name, getitem, setattr_default.
    rewrite T. simpl. now rewrite !G, W. }
  pose proof W as CD. apply with_default_class in CD. destruct CD as [C D].
  simpl. repeat split; trivial.
  - eapply get_set_same, G.
  - apply keys_set.
  - intros other N. now apply get_set_other.
Qed.

Lemma resolve_S fuel o : resolve (S fuel) o = resolve_step (resolve fuel) o.
Proof. reflexivity. Qed.

(** ** What [resolve] does to the table *)

Lemma same_but_default_refl v : same_but_default v v.
Proof. now left. Qed.

Lemma same_but_default_trans v1 v2 v3 :
  same_but_default v1 v2 -> same_but_default v2 v3 -> same_but_default v1 v3.
Proof.
  intros [->|[d E]] [->|[d' E']].
  - now left.
  - right. now exists d'.
  - right. now exists d.
  - right. exists d'.
    destruct v1; simpl in E; try discriminate; injection E as <-; exact E'.
Qed.

Lemma kept_refl defs : kept defs defs.
Proof.
  induction defs; constructor; auto. split; [reflexivity|].
  apply same_but_default_refl.
Qed.

Lemma kept_trans d1 d2 d3 : kept d1 d2 -> kept d2 d3 -> kept d1 d3.
Proof.
  intros K. revert d3. induction K as [|x y l l' [E S] K IH]; intros d3 K'.
  - inversion K'. constructor.
  - inversion K' as [|? z ? l'' [E' S'] K'']; subst. constructor.
    + split; [congruence | eapply same_but_default_trans; eassumption].
    + apply IH, K''.
Qed.

Lemma kept_set name d v v' defs :
  Py.get name defs = Some v -> with_default d v = Some v' ->
  kept defs (Py.set name v' defs).
Proof.
  induction defs as [|[k w] defs IH]; simpl; [discriminate|].
  destruct (String.eqb k name) eqn:E; intros G W.
  - injection G as ->. constructor; [|apply kept_refl].
    split; [reflexivity|]. right. now exists d.
  - constructor; [|apply IH; assumption].
    split; [reflexivity | apply same_but_default_refl].
Qed.

Lemma keeps_ret {A} (x : A) : keeps (ret x).
Proof. intros defs r defs' [= _ <-]. apply kept_refl. Qed.

Lemma keeps_raise {A} e : keeps (@raise A e).
Proof. intros defs r defs' [= _ <-]. apply kept_refl. Qed.

Lemma keeps_bind {A B} (m : M A) (k : A -> M B) :
  keeps m -> (forall x, keeps (k x)) -> keeps (bind m k).
Proof.
  intros Km Kk defs r defs' E. unfold bind in E.
  destruct (m defs) as [[x|e] d1] eqn:Em.
  - eapply kept_trans; [eapply Km, Em | eapply Kk, E].
  - injection E as _ <-. eapply Km, Em.
Qed.

Lemma keeps_getitem name : keeps (getitem name).
Proof.
  intros defs r defs' E. unfold getitem in E.
  destruct (Py.get name defs); injection E as _ <-; apply kept_refl.
Qed.

Lemma keeps_deref o : keeps (deref o).
Proof. destruct o; [apply keeps_ret | apply keeps_getitem]. Qed.

Lemma keeps_ref_name ref : keeps (ref_name ref).
Proof.
  unfold ref_name. destruct (ref_target ref);
    [apply keeps_ret | apply keeps_raise].
Qed.

Lemma keeps_setattr_default name d : keeps (setattr_default name d).
Proof.
  intros defs r defs' E. unfold setattr_default in E.
  destruct (Py.get name defs) as [v|] eqn:G.
  - destruct (with_default d v) as [v'|] eqn:W; injection E as _ <-.
    + eapply kept_set; eassumption.
    + apply kept_refl.
  - injection E as _ <-. apply kept_refl.
Qed.

Lemma keeps_mapM {A B} (f : A -> M B) l :
  (forall x, keeps (f x)) -> keeps (mapM f l).
Proof.
  intros K. induction l as [|x l IH]; simpl.
  - apply keeps_ret.
  - apply keeps_bind; [apply K|]. intros y.
    apply keeps_bind; [apply IH|]. intros ys. apply keeps_ret.
Qed.

Lemma keeps_mapM_items {A B} (f : A -> M B) (l : Py.dict A) :
  (forall x, keeps (f x)) -> keeps (mapM_items f l).
Proof.
  intros K. induction l as [|[k x] l IH]; simpl.
  - apply keeps_ret.
  - apply keeps_bind; [apply K|]. intros y.
    apply keeps_bind; [apply IH|]. intros ys. apply keeps_ret.
Qed.

Lemma keeps_resolve_step rec o :
  (forall o', keeps (rec o')) -> keeps (resolve_step rec o).
Proof.
  intros K. unfold resolve_step.
  apply keeps_bind; [apply keeps_deref|]. intros v.
  destruct v as [ | | | | | base items | base properties required
                | base all_of d | base any_of d | base ref ];
    try apply keeps_ret.
  - apply keeps_bind; [apply K|]. intros. apply keeps_ret.
  - apply keeps_bind; [apply keeps_mapM_items; intros; apply K|].
    intros. apply keeps_ret.
  - destruct all_of as [|[] [|]]; try apply keeps_raise.
    apply keeps_bind; [apply keeps_ref_name|]. intros name.
    apply keeps_bind; [apply keeps_getitem|]. intros _.
    apply keeps_bind; [|intros; apply keeps_ret].
    destruct d; [apply keeps_setattr_default | apply keeps_ret].
  - apply keeps_bind; [apply keeps_mapM; intros; apply K|]. intros.
    apply keeps_bind; [apply keeps_deref|]. intros. apply keeps_ret.
  - apply keeps_bind; [apply keeps_ref_name|]. intros name.
    apply keeps_bind; [apply keeps_getitem|]. intros _. apply K.
Qed.

Lemma keeps_resolve fuel : forall o, keeps (resolve fuel o).
Proof.
  induction fuel as [|fuel IH]; intros o.
  - apply keeps_raise.
  - rewrite resolve_S. apply keeps_resolve_step, IH.
Qed.

Lemma kept_keys defs defs' : kept defs defs' -> Py.keys defs' = Py.keys defs.
Proof.
  induction 1 as [|x y l l' [E _] _ IH]; simpl; [reflexivity|].
  now rewrite IH, E.
Qed.

Lemma kept_get defs defs' name v' :
  kept defs defs' -> Py.get name defs' = Some v' ->
  exists v, Py.get name defs = Some v /\ same_but_default v v'.
Proof.
  induction 1 as [|[k v] [k' w] l l' [E S] _ IH]; simpl; [discriminate|].
  simpl in E, S. subst k'. destruct (String.eqb k name).
  - intros [= <-]. now exists v.
  - exact IH.
Qed.

Lemma resolve_schema_keeps fuel doc r defs' :
  resolve_schema fuel doc = (r, defs') -> kept (definitions doc) defs'.
Proof.
  destruct fuel as [|fuel]; simpl; intros E.
  - injection E as _ <-. apply kept_refl.
  - revert E. apply keeps_bind.
    + apply keeps_mapM_items. intros x. apply keeps_resolve.
    + intros. apply keeps_ret.
Qed.

(** Whatever [resolve] does, and whether it returns or raises, the
    table afterwards binds the same names in the same order, each to the
    node it was bound to or to that node with another default. *)
Theorem resolve_keeps_definitions defs defs' :
  (exists fuel o r, resolve fuel o defs = (r, defs'))
  \/ (exists fuel doc r,
        definitions doc = defs /\ resolve_schema fuel doc = (r, defs')) ->
  Py.keys defs' = Py.keys defs
  /\ forall name v',
       Py.get name defs' = Some v' ->
       exists v, Py.get name defs = Some v
                 /\ (v' = v \/ exists d, with_default d v = Some v').
Proof.
  intros E. assert (kept defs defs') as K.
  { destruct E as [[fuel [o [r E]]]|[fuel [doc [r [<- E]]]]].
    - eapply keeps_resolve, E.
    - eapply resolve_schema_keeps, E. }
  split.
  - apply kept_keys, K.
  - intros name v' G. eapply kept_get; eassumption.
Qed.

(** ** Cycles of references *)

(** When every name of a set is bound to a Ref whose target is in the
    set, resolving any of them exhausts the stack, however deep it is. *)
Theorem resolve_reference_cycle (names : list string) defs :
  (forall name, In name names ->
     exists base ref target,
       Py.get name defs = Some (Ref base ref)
       /\ ref_target ref = Some target /\ In target names) ->
  forall fuel name, In name names ->
    resolve fuel (Shared name) defs = (Raise RecursionError, defs).
Proof.
  intros C. induction fuel as [|fuel IH]; intros name I; [reflexivity|].
  destruct (C name I) as [base [ref [target [G [T I']]]]].
  rewrite resolve_S. unfold resolve_step. simpl.
  unfold bind, getitem, ref_name, ret. rewrite G, T.
  destruct (C target I') as [base' [ref' [target' [G' _]]]].
  rewrite G'. apply IH, I'.
Qed.

(** ** The depth of the stack *)

Lemma grows_refl {A} (m : M A) : grows m m.
Proof. intros defs r defs' E _. exact E. Qed.

Lemma grows_bind {A B} (m m' : M A) (k k' : A -> M B) :
  grows m m' -> (forall x, grows (k x) (k' x)) -> grows (bind m k) (bind m' k').
Proof.
  intros Gm Gk defs r defs' E N. unfold bind in *.
  destruct (m defs) as [[x|e] d1] eqn:Em.
  - rewrite (Gm _ _ _ Em I). apply (Gk x _ _ _ E N).
  - injection E as <- <-. rewrite (Gm _ _ _ Em N). reflexivity.
Qed.

Lemma grows_mapM {A B} (f f' : A -> M B) l :
  (forall x, grows (f x) (f' x)) -> grows (mapM f l) (mapM f' l).
Proof.
  intros G. induction l as [|x l IH]; simpl.
  - apply grows_refl.
  - apply grows_bind; [apply G|]. intros y.
    apply grows_bind; [apply IH|]. intros ys. apply grows_refl.
Qed.

Lemma grows_mapM_items {A B} (f f' : A -> M B) (l : Py.dict A) :
  (forall x, grows (f x) (f' x)) -> grows (mapM_items f l) (mapM_items f' l).
Proof.
  intros G. induction l as [|[k x] l IH]; simpl.
  - apply grows_refl.
  - apply grows_bind; [apply G|]. intros y.
    apply grows_bind; [apply IH|]. intros ys. apply grows_refl.
Qed.

Lemma grows_resolve_step rec rec' o :
  (forall o', grows (rec o') (rec' o')) ->
  grows (resolve_step rec o) (resolve_step rec' o).
Proof.
  intros G. unfold resolve_step.
  apply grows_bind; [apply grows_refl|]. intros v.
  destruct v as [ | | | | | base items | base properties required
                | base all_of d | base any_of d | base ref ];
    try apply grows_refl.
  - apply grows_bind; [apply G|]. intros. apply grows_refl.
  - apply grows_bind; [apply grows_mapM_items; intros; apply G|].
    intros. apply grows_refl.
  - apply grows_bind; [apply grows_mapM; intros; apply G|]. intros.
    apply grows_refl.
  - apply grows_bind; [apply grows_refl|]. intros name.
    apply grows_bind; [apply grows_refl|]. intros _. apply G.
Qed.

Lemma grows_resolve_S fuel :
  forall o, grows (resolve fuel o) (resolve (S fuel) o).
Proof.
  induction fuel as [|fuel IH]; intros o.
  - intros defs r defs' [= <- <-] [].
  - rewrite (resolve_S (S fuel)), (resolve_S fuel).
    apply grows_resolve_step, IH.
Qed.

Lemma grows_resolve fuel fuel' o :
  fuel <= fuel' -> grows (resolve fuel o) (resolve fuel' o).
Proof.
  intros L. induction L as [|fuel' L IH]; [apply grows_refl|].
  intros defs r defs' E N. apply grows_resolve_S; [|exact N].
  apply IH; assumption.
Qed.

Lemma not_recursion_error_iff {A} (r : outcome A) :
  r <> Raise RecursionError -> not_recursion_error r.
Proof. destruct r as [x|[]]; simpl; trivial. intros N. now apply N. Qed.

(** What a call does, unless it raises RecursionError, it does on every
    deeper stack as well. *)
Theorem resolve_deeper_stack fuel fuel' :
  fuel <= fuel' ->
  (forall o defs r defs',
      resolve fuel o defs = (r, defs') -> r <> Raise RecursionError ->
      resolve fuel' o defs = (r, defs'))
  /\ (forall doc r defs',
        resolve_schema fuel doc = (r, defs') -> r <> Raise RecursionError ->
        resolve_schema fuel' doc = (r, defs')).
Proof.
  intros L. split.
  - intros o defs r defs' E N.
    apply (grows_resolve o L); [exact E | now apply not_recursion_error_iff].
  - intros doc r defs' E N.
    destruct fuel as [|fuel]; simpl in E.
    { injection E as <- _. contradiction N. reflexivity. }
    destruct fuel' as [|fuel']; [lia|].
    revert E. simpl.
    intros E. refine (@grows_bind _ _ _ _ _ _ _ _ _ _ _ E _).
    + apply grows_mapM_items. intros x. apply grows_resolve. lia.
    + intros x. apply grows_refl.
    + now apply not_recursion_error_iff.
Qed.

(** ** Resolving a resolved tree *)

Lemma mapM_views (f : Value -> M Out) (g : Value -> Value) defs l :
  (forall x, In x l ->
     exists out, f x defs = (Return out, defs) /\ view defs out = Some (g x)) ->
  exists outs,
    mapM f l defs = (Return outs, defs)
    /\ forall d, view defs (NewAnyOf outs d) = Some (AnyOf no_base (map g l) d).
Proof.
  induction l as [|x l IH]; intros F.
  - exists []. split; reflexivity.
  - destruct (F x (or_introl eq_refl)) as [out [E V]].
    destruct IH as [outs [E' V']].
    { intros y I. apply F. now right. }
    exists (out :: outs). split.
    + simpl. unfold bind. rewrite E, E'. reflexivity.
    + intros d. specialize (V' d). simpl in *. rewrite V.
      match goal with
      | V' : option_map _ ?t = _ |- _ => destruct t; [|discriminate]
      end.
      simpl in V'. injection V' as ->. reflexivity.
Qed.

Lemma mapM_items_views (f : Value -> M Out) (g : Value -> Value) defs
      (l : Py.dict Value) :
  (forall x, In x (Py.values l) ->
     exists out, f x defs = (Return out, defs) /\ view defs out = Some (g x)) ->
  exists outs,
    mapM_items f l defs = (Return outs, defs)
    /\ forall req,
         view defs (NewObject outs req)
         = Some (Object no_base
                   (map (fun item : string * Value =>
                           (fst item, g (snd item))) l) req).
Proof.
  induction l as [|[k x] l IH]; intros F.
  - exists []. split; reflexivity.
  - destruct (F x (or_introl eq_refl)) as [out [E V]].
    destruct IH as [outs [E' V']].
    { intros y I. apply F. now right. }
    exists ((k, out) :: outs). split.
    + simpl. unfold bind. rewrite E, E'. reflexivity.
    + intros req. specialize (V' req). simpl in *. rewrite V.
      match goal with
      | V' : option_map _ ?t = _ |- _ => destruct t; [|discriminate]
      end.
      simpl in V'. injection V' as ->. reflexivity.
Qed.

Lemma rebuilt_resolved v : resolved v = true -> resolved (rebuilt v) = true.
Proof.
  induction v as [ | | | | | base items IH | base properties required IH
                 | | base any_of d IH | ] using Value_nested_ind;
    simpl; trivial.
  - rewrite !forallb_forall. rewrite Forall_forall in IH.
    intros R item I. apply in_map_iff in I. destruct I as [[k x] [<- I]].
    simpl. apply IH; [|apply (R _ I)].
    change x with (snd (k, x)). now apply in_map.
  - rewrite !forallb_forall. rewrite Forall_forall in IH.
    intros R x I. apply in_map_iff in I. destruct I as [y [<- I]].
    apply IH; [exact I | apply (R _ I)].
Qed.

Lemma rebuilt_idempotent v : rebuilt (rebuilt v) = rebuilt v.
Proof.
  induction v as [ | | | | | base items IH | base properties required IH
                 | | base any_of d IH | ] using Value_nested_ind;
    simpl; trivial.
  - now rewrite IH.
  - f_equal. rewrite map_map. apply map_ext_in. intros [k x] I. simpl.
    f_equal. rewrite Forall_forall in IH. apply IH.
    change x with (snd (k, x)). now apply in_map.
  - f_equal. rewrite map_map. apply map_ext_in. intros x I.
    rewrite Forall_forall in IH. apply IH, I.
Qed.

Lemma rebuilt_height v : height (rebuilt v) = height v.
Proof.
  induction v as [ | | | | | base items IH | base properties required IH
                 | | base any_of d IH | ] using Value_nested_ind;
    simpl; trivial.
  - now rewrite IH.
  - do 2 f_equal. rewrite map_map. apply map_ext_in. intros [k x] I. simpl.
    rewrite Forall_forall in IH. apply IH.
    change x with (snd (k, x)). now apply in_map.
  - do 2 f_equal. rewrite map_map. apply map_ext_in. intros x I.
    rewrite Forall_forall in IH. apply IH, I.
Qed.

Lemma resolve_resolved v : forall fuel defs,
  resolved v = true -> height v <= fuel ->
  exists out,
    resolve fuel (Own v) defs = (Return out, defs)
    /\ view defs out = Some (rebuilt v).
Proof.
  induction v as [ | | | | | base items IH | base properties required IH
                 | | base any_of d IH | ] using Value_nested_ind;
    intros fuel defs R L; try discriminate R;
    (destruct fuel as [|fuel]; [simpl in L; lia|]).
  1-5: (eexists; split; reflexivity).
  - destruct (IH fuel defs R) as [out [E V]]; [simpl in L; lia|].
    exists (NewArray out). simpl. unfold bind, ret. simpl. rewrite E.
    split; [reflexivity|]. simpl. now rewrite V.
  - destruct (@mapM_items_views (fun v => resolve fuel (Own v)) rebuilt
                defs properties) as [outs [E V]].
    { intros x I. rewrite Forall_forall in IH. apply (IH x I).
      - simpl in R. rewrite forallb_forall in R.
        unfold Py.values in I. apply in_map_iff in I.
        destruct I as [item [<- I]]. apply (R item I).
      - assert (height x <= list_max (map (fun item : string * Value =>
                   height (snd item)) properties)) as Lx.
        { apply list_max_In. unfold Py.values in I. apply in_map_iff in I.
          destruct I as [item [<- I]].
          apply (in_map (fun item : string * Value => height (snd item))), I. }
        simpl in L. lia. }
    exists (NewObject outs required). split; [|apply V].
    simpl. unfold bind, ret. simpl. now rewrite E.
  - destruct (@mapM_views (fun v => resolve fuel (Own v)) rebuilt
                defs any_of) as [outs [E V]].
    { intros x I. rewrite Forall_forall in IH. apply (IH x I).
      - simpl in R. rewrite forallb_forall in R. apply (R x I).
      - assert (height x <= list_max (map height any_of)) as Lx
            by (apply list_max_In, in_map, I).
        simpl in L. lia. }
    exists (NewAnyOf outs d). split; [|apply V].
    simpl. unfold bind, ret. simpl. now rewrite E.
Qed.

(** Resolving a tree that is already resolved, on a stack as deep as
    the tree, returns the tree with the titles and descriptions of its
    Array, Object and AnyOf nodes removed, and leaves the table alone;
    resolving the result once more changes nothing. *)
Theorem resolve_resolved_tree v fuel defs :
  resolved v = true -> height v <= fuel ->
  (exists out,
     resolve fuel (Own v) defs = (Return out, defs)
     /\ view defs out = Some (rebuilt v))
  /\ (exists out,
        resolve fuel (Own (rebuilt v)) defs = (Return out, defs)
        /\ view defs out = Some (rebuilt v)).
Proof.
  intros R L. split.
  - now apply resolve_resolved.
  - destruct (@resolve_resolved (rebuilt v) fuel defs) as [out [E V]].
    + now apply rebuilt_resolved.
    + now rewrite rebuilt_height.
    + exists out. split; [exact E|]. now rewrite V, rebuilt_idempotent.
Qed.

(** ** The resolver: inlining *)

Lemma inlined_items_keys defs ps ts :
  inlined_items defs ps ts -> Py.keys ts = Py.keys ps.
Proof. induction 1; simpl; congruence. Qed.

Lemma inlined_resolved defs v t : inlined defs v t -> resolved t = true.
Proof.
  intros I.
  induction I using inlined_mut with
    (P0 := fun vs ts _ => forallb resolved ts = true)
    (P1 := fun vs ts _ =>
             forallb (fun item : string * Value => resolved (snd item)) ts
             = true);
    simpl; trivial.
  - destruct v; simpl in *; congruence.
  - now rewrite IHI, IHI0.
  - now rewrite IHI, IHI0.
Qed.

Lemma dicts_ok_items (d : Py.dict Value) :
  (fix all (d : Py.dict Value) : Prop :=
     match d with
     | [] => True
     | (_, x) :: d' => dicts_ok x /\ all d'
     end) d <-> Forall dicts_ok (Py.values d).
Proof.
  induction d as [|[k x] d IH]; simpl.
  - split; auto.
  - rewrite IH. split.
    + intros [A B]. now constructor.
    + intros F. inversion F; subst. now split.
Qed.

Lemma inlined_dicts_ok defs v t :
  (forall name w, Py.get name defs = Some w -> dicts_ok w) ->
  inlined defs v t -> dicts_ok v -> dicts_ok t.
Proof.
  intros D I.
  induction I using inlined_mut with
    (P0 := fun vs ts _ => Forall dicts_ok vs -> Forall dicts_ok ts)
    (P1 := fun vs ts _ =>
             Forall dicts_ok (Py.values vs) -> Forall dicts_ok (Py.values ts));
    trivial.
  - intros O. apply dicts_ok_Object in O. destruct O as [U F].
    apply dicts_ok_Object. split; [|auto].
    unfold Py.unique_keys in *.
    erewrite inlined_items_keys; eassumption.
  - intros O. apply dicts_ok_AnyOf in O. apply dicts_ok_AnyOf. auto.
  - intros _. apply IHI. eapply D; eassumption.
  - intros F. inversion F; subst. constructor; auto.
  - intros F. inversion F; subst. simpl. constructor; auto.
Qed.

Section Inlining.
Variable rank : string -> nat.
Variable defs : Py.dict Value.
Hypothesis defs_allof_free :
  forall name w, Py.get name defs = Some w -> allof_free w = true.
Hypothesis defs_descend :
  forall name w, Py.get name defs = Some w ->
    refs_below rank defs (rank name) w.

Lemma mapM_inlined (f : Value -> M Out) l :
  (forall x, In x l -> returns_inlined defs x (f x defs)) ->
  exists outs ts,
    mapM f l defs = (Return outs, defs)
    /\ (forall d, view defs (NewAnyOf outs d) = Some (AnyOf no_base ts d))
    /\ inlined_list defs l ts.
Proof.
  induction l as [|x l IH]; intros F.
  - exists [], []. repeat split. constructor.
  - destruct (F x (or_introl eq_refl)) as [out [t [E [V R]]]].
    destruct IH as [outs [ts [E' [V' R']]]].
    { intros y I. apply F. now right. }
    exists (out :: outs), (t :: ts). split; [|split].
    + simpl. unfold bind. rewrite E, E'. reflexivity.
    + intros d. specialize (V' d). simpl in *. rewrite V.
      match goal with
      | V' : option_map _ ?g = _ |- _ => destruct g; [|discriminate]
      end.
      simpl in V'. injection V' as ->. reflexivity.
    + now constructor.
Qed.

Lemma mapM_items_inlined (f : Value -> M Out) (d : Py.dict Value) :
  (forall x, In x (Py.values d) -> returns_inlined defs x (f x defs)) ->
  exists outs ts,
    mapM_items f d defs = (Return outs, defs)
    /\ (forall req,
          view defs (NewObject outs req) = Some (Object no_base ts req))
    /\ inlined_items defs d ts.
Proof.
  induction d as [|[k x] d IH]; intros F.
  - exists [], []. repeat split. constructor.
  - destruct (F x (or_introl eq_refl)) as [out [t [E [V R]]]].
    destruct IH as [outs [ts [E' [V' R']]]].
    { intros y I. apply F. now right. }
    exists ((k, out) :: outs), ((k, t) :: ts). split; [|split].
    + simpl. unfold bind. rewrite E, E'. reflexivity.
    + intros req. specialize (V' req). simpl in *. rewrite V.
      match goal with
      | V' : option_map _ ?g = _ |- _ => destruct g; [|discriminate]
      end.
      simpl in V'. injection V' as ->. reflexivity.
    + now constructor.
Qed.

Lemma resolve_returns_inlined : forall r v o fuel,
  deref o defs = (Return v, defs) ->
  allof_free v = true ->
  refs_below rank defs r v ->
  height v + r * list_max (map height (Py.values defs)) <= fuel ->
  returns_inlined defs v (resolve fuel o defs).
Proof.
  induction r as [r IHr] using lt_wf_ind.
  induction v as [ | | | | | base items IH
                 | base properties required IH | | base any_of d IH
                 | base ref ]
    using Value_nested_ind; intros o fuel D A B F;
    try discriminate A;
    (destruct fuel as [|fuel]; [simpl in F; lia|]);
    rewrite (resolve_unfold _ _ D).
  1-5: (eexists; eexists; split; [reflexivity|]; split;
        [apply deref_view, D | now constructor]).
  - destruct (IH (Own items) fuel eq_refl A B) as [out [t [E [V R]]]].
    { simpl in F. lia. }
    exists (NewArray out), (Array no_base t). unfold bind. rewrite E.
    split; [reflexivity|]. simpl. rewrite V.
    split; [reflexivity | now constructor].
  - destruct (@mapM_items_inlined (fun v => resolve fuel (Own v)) properties)
      as [outs [ts [E [V R]]]].
    { intros x I. rewrite Forall_forall in IH.
      apply (IH x I (Own x) fuel eq_refl).
      - simpl in A. rewrite forallb_forall in A.
        unfold Py.values in I. apply in_map_iff in I.
        destruct I as [item [<- I]]. apply (A item I).
      - intros ref Iref. apply B. simpl. apply in_flat_map.
        unfold Py.values in I. apply in_map_iff in I.
        destruct I as [item [<- I]]. exists item. split; assumption.
      - assert (height x <= list_max (map (fun item : string * Value =>
                   height (snd item)) properties)) as L.
        { apply list_max_In. unfold Py.values in I. apply in_map_iff in I.
          destruct I as [item [<- I]].
          apply (in_map (fun item : string * Value => height (snd item))), I. }
        simpl in F. lia. }
    exists (NewObject outs required), (Object no_base ts required).
    unfold bind. rewrite E. split; [reflexivity|].
    split; [apply V | now constructor].
  - destruct (@mapM_inlined (fun v => resolve fuel (Own v)) any_of)
      as [outs [ts [E [V R]]]].
    { intros x I. rewrite Forall_forall in IH.
      apply (IH x I (Own x) fuel eq_refl).
      - simpl in A. rewrite forallb_forall in A. apply (A x I).
      - intros ref Iref. apply B. simpl. apply in_flat_map.
        exists x. split; assumption.
      - assert (height x <= list_max (map height any_of)) as L
            by (apply list_max_In, in_map, I).
        simpl in F. lia. }
    exists (NewAnyOf outs d), (AnyOf no_base ts d).
    unfold bind. rewrite E, D. split; [reflexivity|].
    split; [apply V | now constructor].
  - destruct (B ref (or_introl eq_refl)) as [name [w [T [G L]]]].
    unfold ref_name. rewrite T. unfold bind, ret, getitem. rewrite G.
    destruct (IHr (rank name) L w (Shared name) fuel)
      as [out [t [E [V R]]]].
    + simpl. unfold getitem. now rewrite G.
    + eapply defs_allof_free; exact G.
    + eapply defs_descend; exact G.
    + pose proof G as Hw. apply height_bound in Hw. simpl in F.
      assert (S (rank name) * list_max (map height (Py.values defs))
              <= r * list_max (map height (Py.values defs))) as M
          by (apply Nat.mul_le_mono_r; lia).
      lia.
    + exists out, t. split; [exact E|]. split; [exact V|].
      econstructor; eassumption.
Qed.

End Inlining.

Lemma well_formed_table rank doc :
  well_formed rank doc = true ->
  forallb allof_free
    (Py.values (definitions doc) ++ Py.values (schema_properties doc)) = true ->
  (forall name w, Py.get name (definitions doc) = Some w ->
                  allof_free w = true)
  /\ (forall name w, Py.get name (definitions doc) = Some w ->
                     refs_below rank (definitions doc) (rank name) w)
  /\ (forall x, In x (Py.values (schema_properties doc)) ->
        allof_free x = true
        /\ refs_below rank (definitions doc)
             (S (list_max (map rank (Py.keys (definitions doc))))) x).
Proof.
  unfold well_formed. cbv zeta.
  rewrite !andb_true_iff, !forallb_app, !andb_true_iff, !forallb_forall.
  intros [[_ [Td Tp]] Ac] [Ad Ap].
  set (defs := definitions doc) in *.
  split; [|split].
  - intros name w G. apply Ad. apply get_In in G.
    change w with (snd (name, w)). now apply in_map.
  - intros name w G ref I. pose proof G as Iw. apply get_In in Iw.
    assert (In w (Py.values defs)) as Iv
        by (change w with (snd (name, w)); now apply in_map).
    destruct (@targets_bound_get defs w ref (Td w Iv) I) as [t [x [T Gx]]].
    exists t, x. repeat split; trivial.
    unfold acyclic in Ac. rewrite forallb_forall in Ac.
    specialize (Ac (name, w) Iw). rewrite forallb_forall in Ac.
    specialize (Ac ref I). simpl in Ac. rewrite T in Ac.
    now apply Nat.ltb_lt.
  - intros x I. split; [apply Ap, I|]. intros ref Iref.
    destruct (@targets_bound_get defs x ref (Tp x I) Iref) as [t [w [T G]]].
    exists t, w. repeat split; trivial.
    apply get_keys in G. apply (in_map rank) in G.
    apply list_max_In in G. lia.
Qed.

Lemma resolve_properties_inlined rank doc fuel :
  well_formed rank doc = true ->
  forallb allof_free
    (Py.values (definitions doc) ++ Py.values (schema_properties doc)) = true ->
  enough_fuel rank doc <= S fuel ->
  exists outs ts,
    mapM_items (fun v => resolve fuel (Own v)) (schema_properties doc)
      (definitions doc) = (Return outs, definitions doc)
    /\ (forall req,
          view (definitions doc) (NewObject outs req)
          = Some (Object no_base ts req))
    /\ inlined_items (definitions doc) (schema_properties doc) ts.
Proof.
  intros W A F.
  destruct (@well_formed_table rank doc W A) as [H1 [H2 H3]].
  unfold enough_fuel in F. cbv zeta in F.
  apply mapM_items_inlined.
  intros x I. destruct (H3 x I) as [Ax Bx].
  apply (@resolve_returns_inlined rank (definitions doc) H1 H2
           (S (list_max (map rank (Py.keys (definitions doc)))))
           x (Own x) fuel eq_refl Ax Bx).
  assert (height x
          <= list_max (map height (Py.values (schema_properties doc))))
    as L by (apply list_max_In, in_map, I).
  lia.
Qed.

(** On a well-formed document that holds no AllOf, and with a stack deep
    enough, [resolve] returns the properties of the document with every
    reference replaced by the inlined definition it designates. *)
Theorem resolve_schema_inlines rank doc fuel :
  well_formed rank doc = true ->
  forallb allof_free
    (Py.values (definitions doc) ++ Py.values (schema_properties doc)) = true ->
  enough_fuel rank doc <= fuel ->
  exists out ts,
    resolve_schema fuel doc = (Return out, definitions doc)
    /\ view (definitions doc) out
       = Some (Object no_base ts (schema_required doc))
    /\ inlined_items (definitions doc) (schema_properties doc) ts.
Proof.
  intros W A F.
  destruct fuel as [|fuel]; [unfold enough_fuel in F; simpl in F; lia|].
  destruct (@resolve_properties_inlined rank doc fuel W A F)
    as [outs [ts [E [V R]]]].
  exists (NewObject outs (schema_required doc)), ts.
  unfold resolve_schema, bind. rewrite E.
  split; [reflexivity|]. split; [apply V | exact R].
Qed.

Section EndToEnd.
Context `{Py.SetOrder}.

Lemma issubset_same x : forall path,
  resolved x = true -> dicts_ok x -> issubset x x path = [].
Proof.
  induction x as [ | | | | base e f d | base items IH
                 | base properties required IH | | base any_of d IH | ]
    using Value_nested_ind; intros path R D; try reflexivity;
    try discriminate R.
  - simpl. rewrite format_eqb_refl. simpl.
    destruct e as [xs|]; trivial.
    assert (Py.difference xs xs = []) as ->
        by (apply difference_nil_iff, incl_refl).
    reflexivity.
  - simpl in *. auto.
  - rewrite issubset_Object. apply dicts_ok_Object in D. destruct D as [U D].
    simpl in R. rewrite forallb_forall in R.
    rewrite Forall_forall in IH, D.
    apply flat_map_nil. intros [key v] I. simpl.
    assert (In v (Py.values properties)) as Iv
        by (change v with (snd (key, v)); now apply in_map).
    unfold Py.mem. rewrite (get_unique _ _ U I).
    rewrite andb_false_r. simpl.
    apply IH; [exact Iv | apply (R _ I) | apply D, Iv].
  - rewrite issubset_AnyOf_left. apply dicts_ok_AnyOf in D.
    simpl in R. rewrite forallb_forall in R.
    rewrite Forall_forall in IH, D.
    apply flat_map_nil. intros v I.
    apply issubset_into_variant with (b_value := v); auto.
Qed.

(** A well-formed document without AllOf, once loaded, is a subset of
    itself. *)
Theorem load_issubset_reflexive rank doc fuel :
  well_formed rank doc = true ->
  forallb allof_free
    (Py.values (definitions doc) ++ Py.values (schema_properties doc)) = true ->
  Py.unique_keys (schema_properties doc) ->
  Forall dicts_ok
    (Py.values (definitions doc) ++ Py.values (schema_properties doc)) ->
  enough_fuel rank doc <= fuel ->
  exists t, load fuel doc = Some t /\ forall p, issubset t t p = [].
Proof.
  intros W A U D F.
  destruct fuel as [|fuel]; [unfold enough_fuel in F; simpl in F; lia|].
  destruct (@resolve_properties_inlined rank doc fuel W A F)
    as [outs [ts [E [V R]]]].
  exists (Object no_base ts (schema_required doc)).
  unfold load, resolve_schema, bind. rewrite E.
  split; [apply V|]. intros p.
  apply Forall_app in D. destruct D as [Dd Dp].
  assert (inlined (definitions doc)
            (Object no_base (schema_properties doc) (schema_required doc))
            (Object no_base ts (schema_required doc))) as I
      by now constructor.
  apply issubset_same.
  - eapply inlined_resolved, I.
  - eapply inlined_dicts_ok; [|exact I|].
    + intros name w G. rewrite Forall_forall in Dd. apply Dd.
      apply get_In in G. change w with (snd (name, w)). now apply in_map.
    + apply dicts_ok_Object. split; assumption.
Qed.
End EndToEnd.

(** ** The subset checker: runs and revisions *)

Lemma truthy_difference (S1 S2 : Py.SetOrder) xs ys :
  Py.truthy (@Py.difference S1 xs ys) = Py.truthy (@Py.difference S2 xs ys).
Proof.
  destruct (@Py.difference S1 xs ys) as [|x1 l1] eqn:E1;
    destruct (@Py.difference S2 xs ys) as [|x2 l2] eqn:E2; trivial.
  - apply (@difference_nil_iff S1) in E1.
    apply (@difference_nil_iff S2) in E1. congruence.
  - apply (@difference_nil_iff S2) in E2.
    apply (@difference_nil_iff S1) in E2. congruence.
Qed.

(** The order in which a set is iterated changes nothing but the text
    of enum messages: two runs report the same errors, at the same paths
    and on the same nodes, and agree on whether there is any. *)
Theorem issubset_any_set_order (S1 S2 : Py.SetOrder) : forall x y p,
  map where_ (@issubset S1 x y p) = map where_ (@issubset S2 x y p)
  /\ (@issubset S1 x y p = [] <-> @issubset S2 x y p = []).
Proof.
  assert (forall x y p,
             map where_ (@issubset S1 x y p)
             = map where_ (@issubset S2 x y p)) as W.
  { intros x y. pattern x, y. apply issubset_ind; clear x y.
    - intros base vs d y IH p. rewrite !issubset_AnyOf_left, !map_flat_map.
      apply flat_map_ext_In. rewrite Forall_forall in IH.
      intros v I. apply IH, I.
    - intros x base ws d N IH p.
      rewrite !issubset_AnyOf_right by exact N. cbv zeta.
      rewrite Forall_forall in IH.
      set (L1 := map (fun w => @issubset S1 x w p) ws).
      set (L2 := map (fun w => @issubset S2 x w p) ws).
      assert (map (map where_) L1 = map (map where_) L2) as E.
      { unfold L1, L2. rewrite !map_map. apply map_ext_in.
        intros w I. apply IH, I. }
      assert (forallb Py.truthy L1 = forallb Py.truthy L2) as T.
      { rewrite <- (forallb_truthy_map where_ L1), E.
        apply forallb_truthy_map. }
      rewrite T. destruct (forallb Py.truthy L2); [|reflexivity].
      now rewrite <- !concat_map_map, E.
    - intros base_a ia base_b ib IH p. simpl. apply IH.
    - intros base_a pa ra base_b pb rb IH p.
      rewrite !issubset_Object. cbv zeta. rewrite !map_flat_map.
      apply flat_map_ext_In. intros [key bv] I. simpl.
      rewrite !map_app. f_equal.
      destruct (Py.get key pa) as [av|] eqn:G; [|reflexivity].
      apply (IH key av bv I G).
    - intros x y Nx Ny NA NO p.
      destruct x; try (contradiction Nx; reflexivity);
        destruct y; try (contradiction Ny; reflexivity);
        try (exfalso; apply NA; reflexivity);
        try (exfalso; apply NO; reflexivity);
        try reflexivity.
      cbn [issubset].
      repeat match goal with
        | |- context [if negb ?c then _ else _] => destruct (negb c)
        | |- context [match ?c with Some _ => _ | None => _ end] =>
            destruct c
        end; try reflexivity.
      rewrite (truthy_difference S1 S2).
      destruct (Py.truthy _); reflexivity. }
  intros x y p. split; [apply W|].
  specialize (W x y p).
  destruct (@issubset S1 x y p), (@issubset S2 x y p);
    simpl in W; split; intros E; congruence.
Qed.

Section Evolution.
Context `{Py.SetOrder}.

(** A resolved tree is a subset of every union that has it among its
    variants: making a property nullable, for one, is compatible. *)
Theorem issubset_member_of_union x base any_of d p :
  In x any_of -> resolved x = true -> dicts_ok x ->
  issubset x (AnyOf base any_of d) p = [].
Proof.
  intros I R D. apply issubset_into_variant with (b_value := x); trivial.
  now apply issubset_same.
Qed.

(** An Object is a subset of the Object that has, besides its
    properties, new ones that it does not require. *)
Theorem issubset_added_optional base_a properties a_required
        base_b added b_required p :
  resolved (Object base_a properties a_required) = true ->
  dicts_ok (Object base_a properties a_required) ->
  (forall key, In key (Py.keys added) ->
     ~ In key (Py.keys properties) /\ ~ In key b_required) ->
  issubset (Object base_a properties a_required)
           (Object base_b (properties ++ added) b_required) p = [].
Proof.
  intros R D A. rewrite issubset_Object. cbv zeta.
  apply dicts_ok_Object in D. destruct D as [U D].
  simpl in R. rewrite forallb_forall in R. rewrite Forall_forall in D.
  apply flat_map_nil. intros [key v] I. simpl.
  apply in_app_or in I. destruct I as [I|I].
  - unfold Py.mem. rewrite (get_unique _ _ U I). rewrite andb_false_r. simpl.
    apply issubset_same; [apply (R _ I)|].
    apply D. change v with (snd (key, v)). now apply in_map.
  - assert (In key (Py.keys added)) as K
        by (change key with (fst (key, v)); now apply in_map).
    destruct (A key K) as [Na Nr].
    apply get_None_keys in Na. unfold Py.mem. rewrite Na.
    destruct (Py.contains key b_required) eqn:C; [|reflexivity].
    apply contains_In in C. contradiction.
Qed.
End Evolution.

(** ** Instances of the further properties *)

Lemma issubset_reports_subnodes_witness :
  In (mkError ["b"; "a"] Sample.null Sample.integer default_msg)
     (@issubset first_seen_order Sample.StrOrNoneNested
        Sample.IntOrStrNested [])
  /\ subnode Sample.null Sample.StrOrNoneNested
  /\ subnode Sample.integer Sample.IntOrStrNested.
Proof.
  assert (In (mkError ["b"; "a"] Sample.null Sample.integer default_msg)
             (@issubset first_seen_order Sample.StrOrNoneNested
                Sample.IntOrStrNested [])) as I
      by (left; reflexivity).
  split; [exact I|].
  exact (@issubset_reports_subnodes first_seen_order _ _ _ _ I).
Defined.

Lemma issubset_class_mismatch_witness :
  type Sample.string_ <> CAnyOf
  /\ type Sample.integer <> CAnyOf
  /\ @issubset first_seen_order Sample.string_ Sample.integer ["a"]
     = [mkError ["a"] Sample.string_ Sample.integer default_msg]
  /\ @issubset first_seen_order (Sample.reference "X") Sample.integer ["a"]
     = [mkError ["a"] (Sample.reference "X") Sample.integer "Unknown type"].
Proof.
  split; [discriminate|]. split; [discriminate|]. split.
  - refine (proj1 (proj2 (@issubset_class_mismatch first_seen_order
             Sample.string_ Sample.integer ["a"] _ _)) _ _);
      try discriminate.
    simpl. intros [E|[E|[]]]; discriminate.
  - refine (proj1 (@issubset_class_mismatch first_seen_order
             (Sample.reference "X") Sample.integer ["a"] _ _) _);
      try discriminate.
    simpl. auto.
Defined.

Lemma issubset_format_mismatch_witness :
  Some "date" <> Some "date-time"
  /\ @issubset first_seen_order Sample.date Sample.date_time ["a"]
     = [mkError ["a"] Sample.date Sample.date_time
          "String formats do not match"].
Proof.
  split; [discriminate|].
  apply (@issubset_format_mismatch first_seen_order). discriminate.
Defined.

Lemma issubset_wider_union_witness :
  [Sample.string_] <> []
  /\ incl [Sample.string_] [Sample.integer; Sample.string_]
  /\ @issubset first_seen_order Sample.string_
       (Sample.any_of [Sample.string_]) [] = []
  /\ @issubset first_seen_order Sample.string_
       (Sample.any_of [Sample.integer; Sample.string_]) [] = [].
Proof.
  assert (incl [Sample.string_] [Sample.integer; Sample.string_]) as I
      by (intros x [<-|[]]; right; left; reflexivity).
  split; [discriminate|]. split; [exact I|]. split; [reflexivity|].
  apply (@issubset_wider_union first_seen_order Sample.string_
           no_base [Sample.string_] None);
    [discriminate | exact I | reflexivity].
Defined.

Lemma resolve_alias_with_default_witness :
  ref_target "#/$defs/Name" = Some "Name"
  /\ Py.get "Name" (definitions Sample.aliased_default)
     = Some Sample.string_
  /\ with_default (Some (SStr "d")) Sample.string_
     = Some (String no_base None None (Some (SStr "d")))
  /\ Py.get "Name"
       (snd (resolve 1
               (Own (AllOf no_base [Sample.reference "Name"]
                       (Some (SStr "d"))))
               (definitions Sample.aliased_default)))
     = Some (String no_base None None (Some (SStr "d"))).
Proof.
  split; [reflexivity|]. split; [reflexivity|]. split; [reflexivity|].
  refine (proj1 (proj2 (@resolve_alias_with_default 0 no_base no_base
            "#/$defs/Name" (SStr "d") "Name" Sample.string_
            (String no_base None None (Some (SStr "d")))
            (definitions Sample.aliased_default) _ _ _))); reflexivity.
Defined.

Lemma resolve_keeps_definitions_witness :
  resolve_schema 3 Sample.aliased_default
  = (Return (NewObject [("first", Same (Shared "Name"));
                        ("last", Same (Shared "Name"))] ["last"]),
     [("Name", String no_base None None (Some (SStr "d")))])
  /\ Py.keys [("Name", String no_base None None (Some (SStr "d")))]
     = Py.keys (definitions Sample.aliased_default).
Proof.
  split; [reflexivity|].
  refine (proj1 (@resolve_keeps_definitions
            (definitions Sample.aliased_default)
            [("Name", String no_base None None (Some (SStr "d")))] _)).
  right. exists 3, Sample.aliased_default. eexists.
  split; reflexivity.
Defined.

Lemma resolve_reference_cycle_witness :
  Py.get "A" Sample.cyclic_definitions = Some (Sample.reference "B")
  /\ Py.get "B" Sample.cyclic_definitions = Some (Sample.reference "A")
  /\ resolve 1000 (Shared "A") Sample.cyclic_definitions
     = (Raise RecursionError, Sample.cyclic_definitions).
Proof.
  split; [reflexivity|]. split; [reflexivity|].
  apply (@resolve_reference_cycle ["A"; "B"] Sample.cyclic_definitions).
  - intros name [<-|[<-|[]]].
    + exists no_base, "#/$defs/B", "B". repeat split. right. now left.
    + exists no_base, "#/$defs/A", "A". repeat split. now left.
  - now left.
Defined.

Lemma resolve_deeper_stack_witness :
  2 <= 1000
  /\ resolve 2 (Own (Sample.reference "Name"))
       (definitions Sample.aliased_default)
     = (Return (Same (Shared "Name")), definitions Sample.aliased_default)
  /\ resolve 1000 (Own (Sample.reference "Name"))
       (definitions Sample.aliased_default)
     = (Return (Same (Shared "Name")), definitions Sample.aliased_default).
Proof.
  assert (2 <= 1000) as L by (apply Nat.leb_le; reflexivity).
  split; [exact L|]. split; [reflexivity|].
  apply (proj1 (@resolve_deeper_stack 2 1000 L));
    [reflexivity | discriminate].
Defined.

Lemma resolve_resolved_tree_witness :
  resolved Sample.StrOrNoneNested = true
  /\ height Sample.StrOrNoneNested <= 5
  /\ exists out,
       resolve 5 (Own Sample.StrOrNoneNested) []
       = (Return out, [])
       /\ view [] out = Some (rebuilt Sample.StrOrNoneNested).
Proof.
  assert (height Sample.StrOrNoneNested <= 5) as L
      by (apply Nat.leb_le; reflexivity).
  split; [reflexivity|]. split; [exact L|].
  exact (proj1 (@resolve_resolved_tree Sample.StrOrNoneNested 5 []
                  eq_refl L)).
Defined.

Lemma resolve_schema_inlines_witness :
  well_formed (fun _ => 0) Sample.StrOrNoneNested_document = true
  /\ exists out ts,
       resolve_schema 7 Sample.StrOrNoneNested_document
       = (Return out, definitions Sample.StrOrNoneNested_document)
       /\ view (definitions Sample.StrOrNoneNested_document) out
          = Some (Object no_base ts ["b"])
       /\ inlined_items (definitions Sample.StrOrNoneNested_document)
            (schema_properties Sample.StrOrNoneNested_document) ts.
Proof.
  split; [reflexivity|].
  apply (@resolve_schema_inlines (fun _ => 0)
           Sample.StrOrNoneNested_document 7);
    [reflexivity | reflexivity | apply Nat.leb_le; reflexivity].
Defined.

Lemma load_issubset_reflexive_witness :
  well_formed (fun _ => 0) Sample.StrOrNoneNested_document = true
  /\ Py.unique_keys (schema_properties Sample.StrOrNoneNested_document)
  /\ exists t,
       load 7 Sample.StrOrNoneNested_document = Some t
       /\ forall p, @issubset first_seen_order t t p = [].
Proof.
  assert (Py.unique_keys (schema_properties Sample.StrOrNoneNested_document))
    as U by (repeat constructor; simpl; tauto).
  split; [reflexivity|]. split; [exact U|].
  apply (@load_issubset_reflexive first_seen_order (fun _ => 0)
           Sample.StrOrNoneNested_document 7);
    [reflexivity | reflexivity | exact U | | apply Nat.leb_le; reflexivity].
  repeat constructor; simpl; unfold Py.unique_keys; simpl;
    repeat constructor; simpl; tauto.
Defined.

Lemma load_keeps_properties_witness :
  load 2 Sample.nested_alias
  = Some (Object no_base
            [("m", Object no_base
                     [("inner", Ref no_base "#/$defs/Inner")] ["inner"])]
            ["m"])
  /\ exists properties,
       Object no_base
         [("m", Object no_base
                  [("inner", Ref no_base "#/$defs/Inner")] ["inner"])]
         ["m"]
       = Object no_base properties (schema_required Sample.nested_alias)
       /\ Py.keys properties
          = Py.keys (schema_properties Sample.nested_alias).
Proof.
  split; [reflexivity|].
  apply (@load_keeps_properties 2 Sample.nested_alias). reflexivity.
Defined.

Lemma issubset_member_of_union_witness :
  In Sample.string_ [Sample.string_; Sample.null]
  /\ resolved Sample.string_ = true
  /\ @issubset first_seen_order Sample.string_
       (Sample.any_of [Sample.string_; Sample.null]) ["a"] = [].
Proof.
  assert (In Sample.string_ [Sample.string_; Sample.null]) as Hin
      by now left.
  split; [exact Hin|]. split; [reflexivity|].
  apply (@issubset_member_of_union first_seen_order);
    [exact Hin | reflexivity | exact I].
Defined.

Lemma issubset_added_optional_witness :
  resolved (Sample.object [("a", Sample.string_)] ["a"]) = true
  /\ @issubset first_seen_order
       (Sample.object [("a", Sample.string_)] ["a"])
       (Sample.object ([("a", Sample.string_)] ++ [("b", Sample.number)])
          ["a"]) [] = [].
Proof.
  split; [reflexivity|].
  apply (@issubset_added_optional first_seen_order).
  - reflexivity.
  - simpl. unfold Py.unique_keys. simpl.
    repeat split; repeat constructor; simpl; tauto.
  - intros key [<-|[]]. split; simpl; intros [E|[]]; discriminate.
Defined.
